(** * Shallow embedding of [app.py] (AffordableHousing Boost API)

    The Selenium driver is an external collaborator.  It is modelled as an
    environment [Env] that fixes the outcome of every driver call the worker
    makes: each call either returns a value ([Ok]) or raises ([Exn msg]).
    Waits and timeouts are folded into these outcomes: a [WebDriverWait]
    that expires raises, and the JS polling loop sees the finite list of
    rounds that fit in its timeout.  Python exceptions do not roll back the
    mutations made before them, so the worker runs in a state monad whose
    result is either a value or a raised exception.

    A Python [str] is modelled as a Rocq [string], one 8-bit [ascii] per
    character: the model covers the strings whose code points are all below
    256 (ASCII and Latin-1).  On that range [lower] and [is_space] agree with
    Python's [str.lower] and [str.isspace]; characters above U+00FF are not
    represented. *)

From Stdlib Require Import String Ascii List ZArith Lia Bool Arith.
Import ListNotations.
Open Scope string_scope.

(** ** Python values and exceptions *)

Inductive Res (A : Type) : Type :=
| Ok (a : A)
| Exn (msg : string).
Arguments Ok {A} a.
Arguments Exn {A} msg.

(** ** Strings: [str.lower], [str.split], [str.strip], [in], slicing *)

(** [str.lower] on code points below 256: A-Z and the Latin-1 capitals
    U+00C0-U+00DE except the multiplication sign U+00D7 move up by 32;
    every other character, U+00DF and U+00FF included, lowers to itself. *)
Definition lower_char (c : ascii) : ascii :=
  let n := nat_of_ascii c in
  if (((65 <=? n) && (n <=? 90)) ||
      ((192 <=? n) && (n <=? 222) && negb (n =? 215)))%nat
  then ascii_of_nat (n + 32)%nat else c.

Fixpoint lower (s : string) : string :=
  match s with
  | EmptyString => EmptyString
  | String c s' => String (lower_char c) (lower s')
  end.

(** [str.isspace] on code points below 256, the whitespace that [str.split]
    and [str.strip] use: \t \n \v \f \r, \x1c-\x1f, space, U+0085 (NEL)
    and U+00A0 (no-break space). *)
Definition is_space (c : ascii) : bool :=
  let n := nat_of_ascii c in
  (((9 <=? n) && (n <=? 13)) || ((28 <=? n) && (n <=? 32)) ||
   (n =? 133) || (n =? 160))%nat.

(** [str.split()] with no separator: maximal runs of non-space characters. *)
Fixpoint split_aux (s : string) (cur : string) : list string :=
  match s with
  | EmptyString => if String.eqb cur "" then [] else [cur]
  | String c s' =>
      if is_space c then
        (if String.eqb cur "" then [] else [cur]) ++ split_aux s' ""
      else split_aux s' (cur ++ String c EmptyString)
  end.

Definition py_split (s : string) : list string := split_aux s "".

(** [sep.join(ws)] *)
Fixpoint py_join (sep : string) (ws : list string) : string :=
  match ws with
  | [] => ""
  | [w] => w
  | w :: ws' => w ++ sep ++ py_join sep ws'
  end.

Fixpoint lstrip (s : string) : string :=
  match s with
  | EmptyString => EmptyString
  | String c s' => if is_space c then lstrip s' else s
  end.

Fixpoint rev_string (s : string) : string :=
  match s with
  | EmptyString => EmptyString
  | String c s' => rev_string s' ++ String c EmptyString
  end.

(** [str.strip()] *)
Definition py_strip (s : string) : string :=
  rev_string (lstrip (rev_string (lstrip s))).

Fixpoint prefixb (p s : string) : bool :=
  match p, s with
  | EmptyString, _ => true
  | String a p', String b s' => Ascii.eqb a b && prefixb p' s'
  | String _ _, EmptyString => false
  end.

(** [p in s] *)
Fixpoint contains (p s : string) : bool :=
  prefixb p s ||
  match s with
  | EmptyString => false
  | String _ s' => contains p s'
  end.

(** [s[:n]] *)
Definition slice_to (n : nat) (s : string) : string := substring 0 n s.

(** [x or ""] for an optional string *)
Definition or_empty (o : option string) : string :=
  match o with Some s => s | None => "" end.

(** [f"{x or d}"] *)
Definition or_default (o : option string) (d : string) : string :=
  match o with Some s => if String.eqb s "" then d else s | None => d end.

(** Decimal rendering of integers in f-strings. *)
Fixpoint digits_aux (fuel n : nat) (acc : string) : string :=
  match fuel with
  | 0 => acc
  | S f =>
      let acc' := String (ascii_of_nat (48 + n mod 10)%nat) acc in
      if (n <? 10)%nat then acc' else digits_aux f (n / 10) acc'
  end.

Definition show_nat (n : nat) : string := digits_aux (S n) n "".

Definition show_Z (z : Z) : string :=
  if (z <? 0)%Z then "-" ++ show_nat (Z.to_nat (- z)) else show_nat (Z.to_nat z).

Definition show_bool (b : bool) : string := if b then "True" else "False".


(** ** The page, as seen through the driver *)

(** A [WebElement] handle: its identity and what
    [execute_script("return (arguments[0].innerText || ...).trim();", el)]
    returns for it ([None] is a JS [null]/[undefined]). *)
Record node := mkNode {
  n_id : nat;
  n_js_text : Res (option string)
}.

(** An ancestor container found by XPath, with the result of
    [anc.find_element(By.CSS_SELECTOR, "div.listing--property--address span,
    div.listing--property--address")]. *)
Record container := mkContainer {
  c_node : node;
  c_address : Res node
}.

(** A boost button handle together with the outcome of every driver call
    the worker makes on it. *)
Record button := mkButton {
  b_node : node;
  b_class : Res (option string);   (* btn.get_attribute("class") *)
  b_card : Res container;          (* find_element(By.XPATH, XP_CARD) *)
  b_item : Res container;          (* find_element(By.XPATH, XP_ITEM) *)
  b_wrapper : Res container;       (* find_element(By.XPATH, XP_WRAPPER) *)
  b_preceding : Res node;          (* find_element(By.XPATH, XP_PRECEDING) *)
  b_scroll : Res unit;             (* execute_script scrollIntoView on btn *)
  b_click : Res unit               (* execute_script "arguments[0].click();" *)
}.

Definition XP_CARD := "./ancestor::div[contains(@class,'listing--card')][1]".
Definition XP_ITEM := "./ancestor::div[contains(@class,'listing--item')][1]".
Definition XP_WRAPPER :=
  "./ancestor::div[contains(@class,'listing--property--wrapper')][1]".
Definition XP_PRECEDING :=
  "preceding::div[contains(@class,'listing--property--address')][1]//span".

(** [btn.find_element(By.XPATH, xp)] for the ancestor XPaths. *)
Definition find_ancestor (b : button) (xp : string) : Res container :=
  if String.eqb xp XP_CARD then b_card b
  else if String.eqb xp XP_ITEM then b_item b
  else if String.eqb xp XP_WRAPPER then b_wrapper b
  else Exn "NoSuchElementException".

(** [get_element_text_via_js(drv, el)] *)
Definition get_element_text_via_js (el : node) : string :=
  match n_js_text el with
  | Ok txt => py_strip (or_empty txt)
  | Exn _ => ""
  end.

(** The body of one inner [try] of [find_address_for_button] that looks
    through an ancestor: [Ok (Some a)] is [return a], [Ok None] falls
    through, [Exn] is raised (and caught by the caller). *)
Definition address_via (anc : Res container) : Res (option string) :=
  match anc with
  | Exn e => Exn e
  | Ok a =>
      match c_address a with
      | Exn e => Exn e
      | Ok addr_el =>
          let addr := get_element_text_via_js addr_el in
          if String.eqb addr "" then Ok None else Ok (Some addr)
      end
  end.

(** [try: ... except Exception: pass] around a block that may return. *)
Definition try_pass (r : Res (option string)) : Res (option string) :=
  match r with
  | Ok o => Ok o
  | Exn _ => Ok None
  end.

(** [for xp in xps: try: ... return addr ... except Exception: pass] *)
Fixpoint ancestors_loop (b : button) (xps : list string) : Res (option string) :=
  match xps with
  | [] => Ok None
  | xp :: xps' =>
      match try_pass (address_via (find_ancestor b xp)) with
      | Ok (Some a) => Ok (Some a)
      | Ok None => ancestors_loop b xps'
      | Exn e => Exn e
      end
  end.

(** The body of the outer [try] of [find_address_for_button]. *)
Definition find_address_body (b : button) : Res (option string) :=
  (* 1) listing--card ancestor *)
  match try_pass (address_via (find_ancestor b XP_CARD)) with
  | Ok (Some a) => Ok (Some a)
  | Exn e => Exn e
  | Ok None =>
  (* 2) other ancestors *)
  match ancestors_loop b [XP_ITEM; XP_WRAPPER] with
  | Ok (Some a) => Ok (Some a)
  | Exn e => Exn e
  | Ok None =>
  (* 3) preceding address in DOM *)
  try_pass
    (match b_preceding b with
     | Exn e => Exn e
     | Ok addr_el =>
         let addr := get_element_text_via_js addr_el in
         if String.eqb addr "" then Ok None else Ok (Some addr)
     end)
  end
  end.

(** [find_address_for_button(drv, btn)]: the outer [try] passes every
    exception and falls through to [return None]. *)
Definition find_address_for_button (b : button) : Res (option string) :=
  match find_address_body b with
  | Ok (Some a) => Ok (Some a)
  | Ok None => Ok None
  | Exn _ => Ok None
  end.

(** ** Browser options *)

Record chrome_options := mkOpts {
  o_args : list string;                         (* options.add_argument *)
  o_binary_location : option string;            (* options.binary_location *)
  o_experimental : list (string * list string)  (* add_experimental_option *)
}.

(** [if x:] on an optional string *)
Definition truthy (o : option string) : bool :=
  match o with Some s => negb (String.eqb s "") | None => false end.

(** The options built by [selenium_boost_worker] (lines 200-210). *)
Definition build_options (headless : bool) (chrome_bin : option string)
  : chrome_options :=
  {| o_args :=
       (if headless then ["--headless=new"] else []) ++
       ["--no-sandbox"; "--disable-dev-shm-usage"; "--disable-gpu";
        "--window-size=1920,1080"; "--lang=en-US"];
     o_binary_location := if truthy chrome_bin then chrome_bin else None;
     o_experimental := [] |}.

(** Chrome's anti-automation fingerprint suppression: the
    [--disable-blink-features=AutomationControlled] switch or the
    experimental options [excludeSwitches]/[useAutomationExtension]. *)
Definition suppresses_automation_flag (o : chrome_options) : bool :=
  existsb (fun a => contains "automationcontrolled" (lower a)) (o_args o) ||
  existsb (fun kv => String.eqb (fst kv) "excludeSwitches"
                     || String.eqb (fst kv) "useAutomationExtension")
          (o_experimental o).

(** ** The driver session and the worker's state *)

(** The steps of the login flow (lines 218-243); each is a driver call or a
    [WebDriverWait(driver, wait_time).until(...)] that raises on expiry. *)
Inductive login_step :=
| GetHome                      (* driver.get("https://www.affordablehousing.com/") *)
| ClickSignin                  (* li.ah--signin--link clickable, click *)
| EnterEmail (email : string)  (* input#ah_user visible, clear, send_keys *)
| ClickFirstSubmit             (* button#signin-button clickable, click *)
| EnterPassword (pw : string)  (* input#ah_pass visible, clear, send_keys *)
| ClickFinalSubmit             (* button#signin-with-password-button *)
| WaitDashboard.               (* EC.url_contains("dashboard") *)

Record Env := mkEnv {
  e_chrome_bin : option string;          (* find_chrome_binary() *)
  e_chromedriver_bin : option string;    (* find_chromedriver_binary() *)
  e_start : chrome_options -> Res unit;  (* webdriver.Chrome(service, options) *)
  e_login : login_step -> Res unit;
  e_nav_listing : Res unit;              (* driver.get(listing_url) *)
  e_scroll_by : nat -> Res unit;         (* k-th "window.scrollBy(...)" *)
  e_height : nat -> Res Z;               (* k-th "return document.body.scrollHeight" *)
  e_poll : list (Res Z * Res Z * Res Z); (* JS poll rounds within the timeout *)
  e_buttons : Res (list button);         (* driver.find_elements(...) *)
  e_shot : nat -> Res string;            (* k-th get_screenshot_as_base64() *)
  e_quit : Res unit                      (* driver.quit() *)
}.

(** Ghost events recording the driver calls the claims talk about. *)
Inductive event :=
| EvDriverCreated (o : chrome_options)
| EvPollStart
| EvAttempt (i : nat) (id : nat)
| EvQuit.

(** One [boostable] entry: [(address, btn, norm)]. *)
Definition entry : Type := (option string * button * string)%type.

Record St := mkSt {
  s_logs : list string;                  (* logs *)
  s_clicked_addresses : list (option string);
  s_screenshot : option string;          (* screenshot_b64 *)
  s_driver : bool;                       (* driver is not None *)
  s_shots : nat;                         (* screenshot calls made so far *)
  s_boostable : list entry;              (* boostable *)
  s_trace : list event
}.

Definition init_st : St := mkSt [] [] None false 0 [] [].

Record BoostResponse := mkResp {
  success : bool;
  clicked_count : Z;
  clicked_addresses : list (option string);
  debug_logs : list string;
  error : option string;
  screenshot_base64 : option string
}.

(** ** A state monad with Python exceptions *)

Definition M (A : Type) : Type := St -> Res A * St.

Definition ret {A} (a : A) : M A := fun s => (Ok a, s).

Definition bind {A B} (m : M A) (k : A -> M B) : M B :=
  fun s => match m s with
           | (Ok a, s') => k a s'
           | (Exn e, s') => (Exn e, s')
           end.

Notation "x <- m ;; k" := (bind m (fun x => k))
  (at level 61, m at next level, right associativity).
Notation "m ;; k" := (bind m (fun _ => k))
  (at level 61, right associativity).

(** [raise Exception(msg)] *)
Definition raise {A} (msg : string) : M A := fun s => (Exn msg, s).

(** A driver call whose outcome the environment fixes. *)
Definition lift {A} (r : Res A) : M A := fun s => (r, s).

(** [try: m except Exception as e: h(e)] *)
Definition try_except {A} (m : M A) (h : string -> M A) : M A :=
  fun s => match m s with
           | (Ok a, s') => (Ok a, s')
           | (Exn e, s') => h e s'
           end.

Definition get : M St := fun s => (Ok s, s).

Definition log (l : string) : M unit :=
  fun s => (Ok tt, {| s_logs := s_logs s ++ [l];
                      s_clicked_addresses := s_clicked_addresses s;
                      s_screenshot := s_screenshot s; s_driver := s_driver s;
                      s_shots := s_shots s; s_boostable := s_boostable s;
                      s_trace := s_trace s |}).

Definition record (ev : event) : M unit :=
  fun s => (Ok tt, {| s_logs := s_logs s;
                      s_clicked_addresses := s_clicked_addresses s;
                      s_screenshot := s_screenshot s; s_driver := s_driver s;
                      s_shots := s_shots s; s_boostable := s_boostable s;
                      s_trace := s_trace s ++ [ev] |}).

(** [clicked_addresses.append(a)] *)
Definition push_address (a : option string) : M unit :=
  fun s => (Ok tt, {| s_logs := s_logs s;
                      s_clicked_addresses := s_clicked_addresses s ++ [a];
                      s_screenshot := s_screenshot s; s_driver := s_driver s;
                      s_shots := s_shots s; s_boostable := s_boostable s;
                      s_trace := s_trace s |}).

(** [boostable.append(x)] *)
Definition push_boostable (x : entry) : M unit :=
  fun s => (Ok tt, {| s_logs := s_logs s;
                      s_clicked_addresses := s_clicked_addresses s;
                      s_screenshot := s_screenshot s; s_driver := s_driver s;
                      s_shots := s_shots s; s_boostable := s_boostable s ++ [x];
                      s_trace := s_trace s |}).

(** [screenshot_b64 = v] *)
Definition set_screenshot (v : string) : M unit :=
  fun s => (Ok tt, {| s_logs := s_logs s;
                      s_clicked_addresses := s_clicked_addresses s;
                      s_screenshot := Some v; s_driver := s_driver s;
                      s_shots := s_shots s; s_boostable := s_boostable s;
                      s_trace := s_trace s |}).

(** [driver = webdriver.Chrome(...)] once the call has returned. *)
Definition set_driver (o : chrome_options) : M unit :=
  fun s => (Ok tt, {| s_logs := s_logs s;
                      s_clicked_addresses := s_clicked_addresses s;
                      s_screenshot := s_screenshot s; s_driver := true;
                      s_shots := s_shots s; s_boostable := s_boostable s;
                      s_trace := s_trace s ++ [EvDriverCreated o] |}).

(** ** [selenium_boost_worker] *)

Definition DEFAULT_MAX_SCROLL_LOOPS : nat := 60.
Definition listing_url :=
  "https://www.affordablehousing.com/v4/pages/Listing/Listing.aspx".

(** [traceback.format_exc()] for an [Exception(msg)] raised in the worker. *)
Definition format_exc (msg : string) : string :=
  "Traceback (most recent call last): ... Exception: " ++ msg.

(** The eligibility test of lines 302-303. *)
Definition in_progress (norm classes : string) : bool :=
  contains "usage-boost-inprogress" classes || contains "progress" norm
  || contains "inprogress" norm.

Definition is_boostable (norm classes : string) : bool :=
  contains "boost" norm && negb (in_progress norm classes).

Section Worker.
Variable env : Env.

(** [driver.get_screenshot_as_base64()] *)
Definition take_screenshot : M string :=
  fun s => (e_shot env (s_shots s),
            {| s_logs := s_logs s; s_clicked_addresses := s_clicked_addresses s;
               s_screenshot := s_screenshot s; s_driver := s_driver s;
               s_shots := S (s_shots s); s_boostable := s_boostable s;
               s_trace := s_trace s |}).

(** [driver.quit()] *)
Definition quit_driver : M unit := record EvQuit ;; lift (e_quit env).

Definition login_flow (email password : string) : M unit :=
  lift (e_login env GetHome) ;; log "Opened affordablehousing.com" ;;
  lift (e_login env ClickSignin) ;; log "Clicked homepage Sign In" ;;
  lift (e_login env (EnterEmail email)) ;; log "Entered email" ;;
  lift (e_login env ClickFirstSubmit) ;; log "Clicked first Sign In button" ;;
  lift (e_login env (EnterPassword password)) ;; log "Entered password" ;;
  lift (e_login env ClickFinalSubmit) ;; log "Clicked final Sign In button" ;;
  lift (e_login env WaitDashboard) ;; log "Login confirmed (dashboard)".

(** [while loops < DEFAULT_MAX_SCROLL_LOOPS: ...]; [fuel] is
    [DEFAULT_MAX_SCROLL_LOOPS - loops]. *)
Fixpoint scroll_loop (fuel loops : nat) (last_height : Z) : M nat :=
  match fuel with
  | 0 => ret loops
  | S f =>
      lift (e_scroll_by env loops) ;;
      let loops' := S loops in
      new_height <- lift (e_height env loops') ;;
      if Z.eqb new_height last_height then ret loops'
      else scroll_loop f loops' new_height
  end.

(** The JS polling loop; [Some found_count] when a round finds something. *)
Fixpoint poll_loop (rounds : list (Res Z * Res Z * Res Z)) : M (option Z) :=
  match rounds with
  | [] => ret None
  | (rb, rc, ra) :: rs =>
      c_buttons <- lift rb ;;
      c_cards <- lift rc ;;
      c_addresses <- lift ra ;;
      log ("[JS POLL] buttons=" ++ show_Z c_buttons ++ ", cards=" ++ show_Z c_cards
           ++ ", addresses=" ++ show_Z c_addresses) ;;
      if (0 <? c_buttons)%Z || (0 <? c_cards)%Z || (0 <? c_addresses)%Z
      then ret (Some (Z.max c_buttons (Z.max c_cards c_addresses)))
      else poll_loop rs
  end.

(** The body of the [try] of the filtering loop, for [btn#idx]. *)
Definition inspect_button (idx : nat) (btn : button) : M unit :=
  let btn_text := lower (get_element_text_via_js (b_node btn)) in
  let norm := py_join " " (py_split btn_text) in
  cls <- lift (b_class btn) ;;
  let classes := lower (or_empty cls) in
  if is_boostable norm classes then
    address <- lift (find_address_for_button btn) ;;
    push_boostable (address, btn, norm) ;;
    log ("[FOUND] btn#" ++ show_nat idx ++ " text='" ++ norm ++ "' addr='"
         ++ or_default address "<none>" ++ "'")
  else
    log ("[SKIP] btn#" ++ show_nat idx ++ " text='" ++ slice_to 60 norm
         ++ "' class='" ++ slice_to 80 classes ++ "' in_progress="
         ++ show_bool (in_progress norm classes)).

(** [for idx, btn in enumerate(buttons, start=1): try ... except ...] *)
Fixpoint filter_buttons (idx : nat) (bs : list button) : M unit :=
  match bs with
  | [] => ret tt
  | btn :: bs' =>
      try_except (inspect_button idx btn)
        (fun e => log ("[WARN] error inspecting btn#" ++ show_nat idx ++ ": " ++ e)) ;;
      filter_buttons (S idx) bs'
  end.

(** [boostable[i]] *)
Definition boostable_at (i : nat) : M entry :=
  fun s => match nth_error (s_boostable s) i with
           | Some x => (Ok x, s)
           | None => (Exn "list index out of range", s)
           end.

(** One iteration of [for i in range(to_click)]; returns [clicked].
    Nothing after [driver.execute_script("arguments[0].click();", btn)]
    in the [try] can raise. *)
Definition click_one (i : nat) (clicked : nat) : M nat :=
  item <- boostable_at i ;;
  let '(address, btn, text) := item in
  try_except
    (record (EvAttempt i (n_id (b_node btn))) ;;
     lift (b_scroll btn) ;;
     lift (b_click btn) ;;
     let clicked' := S clicked in
     push_address address ;;
     log ("Clicked boost for: " ++ or_default address "<address not found>"
          ++ " (text='" ++ text ++ "')") ;;
     ret clicked')
    (fun ce =>
       log ("Error clicking boost #" ++ show_nat (S i) ++ " ("
            ++ or_default address "unknown" ++ "): " ++ ce) ;;
       ret clicked).

Fixpoint click_loop (is : list nat) (clicked : nat) : M nat :=
  match is with
  | [] => ret clicked
  | i :: is' => c <- click_one i clicked ;; click_loop is' c
  end.

(** [try: screenshot_b64 = driver.get_screenshot_as_base64(); logs.append(ok)
    except Exception: logs.append(ko)] *)
Definition try_screenshot (ok ko : string) : M unit :=
  try_except (shot <- take_screenshot ;; set_screenshot shot ;; log ok)
             (fun _ => log ko).

(** Lines 189-215: detect the binaries, build the options, start Chrome. *)
Definition acquire_session (headless : bool) : M unit :=
  log "Starting Selenium worker" ;;
  let chrome_bin := e_chrome_bin env in
  let chromedriver_bin := e_chromedriver_bin env in
  log ("Detected chrome binary: " ++ or_default chrome_bin "<none>") ;;
  log ("Detected chromedriver binary: " ++ or_default chromedriver_bin "<none>") ;;
  (if truthy chromedriver_bin then ret tt
   else raise "Chromedriver binary not found. Set CHROMEDRIVER_PATH or install chromium-driver in the image.") ;;
  let options := build_options headless chrome_bin in
  lift (e_start env options) ;;
  set_driver options.

(** Lines 246-262: open the listing page and scroll. *)
Definition load_listing : M unit :=
  lift (e_nav_listing env) ;;
  log ("Navigated to " ++ listing_url) ;;
  last_height <- lift (e_height env 0) ;;
  loops <- scroll_loop DEFAULT_MAX_SCROLL_LOOPS 0 last_height ;;
  log ("Finished incremental scrolling (" ++ show_nat loops ++ " loops)").

(** Lines 264-289: JS polling for cards/buttons/addresses. *)
Definition poll_for_content : M unit :=
  record EvPollStart ;;
  found <- poll_loop (e_poll env) ;;
  log ("[JS POLL RESULT] found_context="
       ++ (match found with Some _ => "('main', None)" | None => "None" end)
       ++ " found_count="
       ++ show_Z (match found with Some n => n | None => 0%Z end)) ;;
  match found with
  | Some _ => ret tt
  | None =>
      try_screenshot "No cards/buttons found - saved screenshot (base64)"
                     "No cards/buttons found - screenshot failed" ;;
      raise "No listing cards or buttons found after JS polling"
  end.

(** Lines 291-320: collect the buttons and build [boostable]. *)
Definition resolve_targets : M (list entry) :=
  buttons <- lift (e_buttons env) ;;
  log ("Collected " ++ show_nat (length buttons)
       ++ " button elements in main document (selenium)") ;;
  filter_buttons 1 buttons ;;
  s <- get ;;
  let boostable := s_boostable s in
  log ("Total boostable detected: " ++ show_nat (length boostable)) ;;
  match boostable with
  | [] =>
      try_screenshot "No boostable buttons after filtering - saved screenshot (base64)"
                     "No boostable buttons - screenshot failed" ;;
      raise "No boostable buttons found to click"
  | _ :: _ => ret boostable
  end.

(** Lines 322-337: click up to the requested number; returns [clicked]. *)
Definition click_batch (num_buttons : Z) (boostable : list entry) : M nat :=
  let to_click := Z.min num_buttons (Z.of_nat (length boostable)) in
  click_loop (seq 0 (Z.to_nat to_click)) 0.

(** The [try] block of [selenium_boost_worker] (lines 189-346). *)
Definition worker_body (email password : string) (num_buttons : Z)
    (headless : bool) : M BoostResponse :=
  acquire_session headless ;;
  login_flow email password ;;
  load_listing ;;
  poll_for_content ;;
  boostable <- resolve_targets ;;
  clicked <- click_batch num_buttons boostable ;;
  s <- get ;;
  ret {| success := true; clicked_count := Z.of_nat clicked;
         clicked_addresses := s_clicked_addresses s; debug_logs := s_logs s;
         error := None; screenshot_base64 := s_screenshot s |}.

(** The [except Exception as exc] handler (lines 348-366). *)
Definition except_handler (exc : string) : M BoostResponse :=
  log ("Unhandled exception: " ++ exc) ;;
  log (format_exc exc) ;;
  try_except
    (s <- get ;;
     if s_driver s then
       shot <- take_screenshot ;; set_screenshot shot ;;
       log "Captured error screenshot (base64)"
     else ret tt)
    (fun _ => ret tt) ;;
  s <- get ;;
  ret {| success := false; clicked_count := 0; clicked_addresses := [];
         debug_logs := s_logs s; error := Some exc;
         screenshot_base64 := s_screenshot s |}.

(** The [finally] block (lines 367-373). *)
Definition finally_block : M unit :=
  try_except
    (s <- get ;;
     if s_driver s then quit_driver ;; log "Driver.quit() called" else ret tt)
    (fun _ => ret tt).

(** [selenium_boost_worker(email, password, num_buttons, headless, wait_time)].
    [wait_time] is the [WebDriverWait] budget; its expiry is part of the
    outcomes of [e_login].  The response's [debug_logs] is the list as it is
    when the response is built (pydantic validates it into a new list), so
    the [finally] block's line does not reach it. *)
Definition selenium_boost_worker (email password : string) (num_buttons : Z)
    (headless : bool) (wait_time : Z) : Res BoostResponse * St :=
  let '(r, s1) := try_except (worker_body email password num_buttons headless)
                             except_handler init_st in
  let '(_, s2) := finally_block s1 in
  (r, s2).

End Worker.

(** ** Locating Chrome and chromedriver (lines 53-135) *)

(** The host as [find_chrome_binary] and [find_chromedriver_binary] see it. *)
Record Host := mkHost {
  h_environ : string -> option string;   (* os.environ.get(k) *)
  h_isfile : string -> bool;             (* os.path.isfile(p) *)
  h_which : string -> option string;     (* shutil.which(exe) *)
  h_autoinstaller : bool;                (* _try_chromedriver_autoinstaller and
                                            chromedriver_autoinstaller is not None *)
  h_install : Res (option string);       (* chromedriver_autoinstaller.install(path="/tmp") *)
  h_installed_isfile : string -> bool    (* os.path.isfile(p) once the install ran *)
}.

Definition COMMON_CHROME_PATHS : list string :=
  ["/usr/bin/chromium"; "/usr/bin/chromium-browser"; "/usr/bin/google-chrome";
   "/usr/bin/google-chrome-stable"; "/usr/local/bin/chromium"; "/snap/bin/chromium"].

Definition COMMON_CHROMEDRIVER_PATHS : list string :=
  ["/usr/bin/chromedriver"; "/usr/bin/chromium-driver";
   "/usr/local/bin/chromedriver"; "/opt/chromedriver"].

Definition CHROME_EXES : list string :=
  ["chromium"; "chromium-browser"; "google-chrome"; "google-chrome-stable"; "chrome"].

(** [a or b] on optional strings *)
Definition py_or (a b : option string) : option string :=
  if truthy a then a else b.

(** [for exe in exes: p = shutil.which(exe); if p: return p] *)
Fixpoint which_first (h : Host) (exes : list string) : option string :=
  match exes with
  | [] => None
  | exe :: exes' =>
      let p := h_which h exe in
      if truthy p then p else which_first h exes'
  end.

(** [for p in paths: if os.path.isfile(p): return p] *)
Fixpoint file_first (h : Host) (ps : list string) : option string :=
  match ps with
  | [] => None
  | p :: ps' => if h_isfile h p then Some p else file_first h ps'
  end.

(** [find_chrome_binary()] *)
Definition find_chrome_binary (h : Host) : option string :=
  (* 1) environment override *)
  let env := py_or (h_environ h "CHROME_BIN") (h_environ h "GOOGLE_CHROME_SHIM") in
  if truthy env && h_isfile h (or_empty env) then env
  else
  (* 2) which lookups *)
  match which_first h CHROME_EXES with
  | Some p => Some p
  | None =>
  (* 3) common static paths *)
  file_first h COMMON_CHROME_PATHS
  end.

(** [find_chromedriver_binary()]; the [try] around the install passes
    every exception. *)
Definition find_chromedriver_binary (h : Host) : option string :=
  (* 1) environment override *)
  let env := py_or (h_environ h "CHROMEDRIVER_PATH") (h_environ h "CHROMEDRIVER_BIN") in
  if truthy env && h_isfile h (or_empty env) then env
  else
  (* 2) which lookups *)
  let p := h_which h "chromedriver" in
  if truthy p then p
  else
  (* 3) common static paths *)
  match file_first h COMMON_CHROMEDRIVER_PATHS with
  | Some pth => Some pth
  | None =>
  (* 4) chromedriver_autoinstaller, when available and Chrome is found *)
  if h_autoinstaller h && truthy (find_chrome_binary h) then
    match h_install h with
    | Ok installed =>
        if truthy installed && h_installed_isfile h (or_empty installed)
        then installed else None
    | Exn _ => None
    end
  else None
  end.

(** ** The [/boost] endpoint (lines 412-430) *)

Definition DEFAULT_WAIT_TIME : Z := 25.

(** [BoostRequest] as the endpoint receives it: a body pydantic has
    accepted.  The validation itself (required fields, types, the bound
    [Field(1, ge=1)] of line 41) runs in FastAPI before the endpoint and is
    not modelled here; the bound enters the theorems as a hypothesis. *)
Record BoostRequest := mkReq {
  email : string;
  password : string;
  num_buttons : Z;
  headless : bool;
  wait_time : option Z
}.

Inductive EndpointResult :=
| Resp (r : BoostResponse)
| HttpError (status_code : Z) (detail : string).

(** [boost_endpoint(req)]: [req.wait_time or DEFAULT_WAIT_TIME], then the
    worker; an exception out of the worker becomes a 500. *)
Definition boost_endpoint (env : Env) (req : BoostRequest) : EndpointResult :=
  let w := match wait_time req with
           | Some w => if Z.eqb w 0 then DEFAULT_WAIT_TIME else w
           | None => DEFAULT_WAIT_TIME
           end in
  match fst (selenium_boost_worker env (email req) (password req) (num_buttons req)
                                   (headless req) w) with
  | Ok result => Resp result
  | Exn exc => HttpError 500 ("Server error: " ++ exc)
  end.

(** ** Concrete pages used by the examples and witnesses *)

Definition text_node (id : nat) (t : string) : node := mkNode id (Ok (Some t)).

Definition card_with (id : nat) (addr : string) : Res container :=
  Ok (mkContainer (text_node id "") (Ok (text_node (id + 1) addr))).

Definition no_element {A} : Res A := Exn "NoSuchElementException".

(** A boost button inside a [listing--card] whose address is [addr]. *)
Definition card_button (id : nat) (addr : string) (click : Res unit) : button :=
  {| b_node := text_node id " Boost ";
     b_class := Ok (Some "cmn--btn usage-boost-button");
     b_card := card_with (100 + id) addr;
     b_item := no_element; b_wrapper := no_element; b_preceding := no_element;
     b_scroll := Ok tt; b_click := click |}.

Definition btn_X := card_button 1 "1 X Street" (Ok tt).
Definition btn_Y := card_button 2 "2 Y Street" (Exn "stale element reference").
Definition btn_Z := card_button 3 "3 Z Street" (Ok tt).

(** A session where every step up to the button lookup succeeds. *)
Definition page_env (poll : list (Res Z * Res Z * Res Z)) (bs : list button)
    : Env :=
  {| e_chrome_bin := Some "/usr/bin/chromium";
     e_chromedriver_bin := Some "/usr/bin/chromedriver";
     e_start := fun _ => Ok tt;
     e_login := fun _ => Ok tt;
     e_nav_listing := Ok tt;
     e_scroll_by := fun _ => Ok tt;
     e_height := fun k => Ok (Z.of_nat (Nat.min k 2 * 1000));
     e_poll := poll;
     e_buttons := Ok bs;
     e_shot := fun _ => Ok "iVBORw0KGgo=";
     e_quit := Ok tt |}.

Definition env_C := page_env [(Ok 3%Z, Ok 3%Z, Ok 3%Z)] [btn_X; btn_Y; btn_Z].

(** A button already being boosted: its class carries the in-progress marker
    while its text still reads [Boost]. *)
Definition btn_P : button :=
  {| b_node := text_node 4 " Boost ";
     b_class := Ok (Some "cmn--btn usage-boost-button usage-boost-inprogress");
     b_card := card_with 104 "4 P Street";
     b_item := no_element; b_wrapper := no_element; b_preceding := no_element;
     b_scroll := Ok tt; b_click := Ok tt |}.

(** A button outside any listing container, with no address before it. *)
Definition btn_lone : button :=
  {| b_node := text_node 5 " Boost ";
     b_class := Ok (Some "cmn--btn usage-boost-button");
     b_card := no_element; b_item := no_element; b_wrapper := no_element;
     b_preceding := no_element; b_scroll := Ok tt; b_click := Ok tt |}.

(** A listing page on which the polling never sees a button, card or
    address. *)
Definition env_P := page_env [(Ok 0%Z, Ok 0%Z, Ok 0%Z); (Ok 0%Z, Ok 0%Z, Ok 0%Z)] [].

(** The same empty page, on a live session whose screenshot calls raise. *)
Definition env_P_noshot : Env :=
  {| e_chrome_bin := Some "/usr/bin/chromium";
     e_chromedriver_bin := Some "/usr/bin/chromedriver";
     e_start := fun _ => Ok tt;
     e_login := fun _ => Ok tt;
     e_nav_listing := Ok tt;
     e_scroll_by := fun _ => Ok tt;
     e_height := fun k => Ok (Z.of_nat (Nat.min k 2 * 1000));
     e_poll := [(Ok 0%Z, Ok 0%Z, Ok 0%Z)];
     e_buttons := Ok [];
     e_shot := fun _ => Exn "WebDriverException: failed to capture screenshot";
     e_quit := Ok tt |}.

(** A listing page with one in-progress and one boostable button. *)
Definition env_D := page_env [(Ok 2%Z, Ok 2%Z, Ok 2%Z)] [btn_P; btn_X].

(** A session whose very first login step (loading the home page) fails. *)
Definition env_L : Env :=
  {| e_chrome_bin := None;
     e_chromedriver_bin := Some "/usr/bin/chromedriver";
     e_start := fun _ => Ok tt;
     e_login := fun st => match st with
                          | GetHome => Exn "net::ERR_NAME_NOT_RESOLVED"
                          | _ => Ok tt
                          end;
     e_nav_listing := Ok tt;
     e_scroll_by := fun _ => Ok tt;
     e_height := fun _ => Ok 0%Z;
     e_poll := [];
     e_buttons := Ok [];
     e_shot := fun _ => Ok "iVBORw0KGgo=";
     e_quit := Ok tt |}.

(** Placeholder for the response of a run that has none. *)
Definition no_response : BoostResponse :=
  {| success := false; clicked_count := 0; clicked_addresses := [];
     debug_logs := []; error := None; screenshot_base64 := None |}.

(** ** Concrete hosts, pages and probes *)

(** [os.environ], [shutil.which] or a file system given by a table. *)
Definition lookup_env (kvs : list (string * string)) (k : string) : option string :=
  match find (fun kv => String.eqb (fst kv) k) kvs with
  | Some kv => Some (snd kv)
  | None => None
  end.

Definition mem_path (ps : list string) (p : string) : bool :=
  existsb (String.eqb p) ps.

(** [CHROME_BIN] names a missing file while [GOOGLE_CHROME_SHIM] names an
    existing one; [google-chrome] is on the [PATH]. *)
Definition host_A : Host :=
  {| h_environ := lookup_env [("CHROME_BIN", "/opt/stale/chrome");
                              ("GOOGLE_CHROME_SHIM", "/app/.apt/usr/bin/google-chrome")];
     h_isfile := mem_path ["/app/.apt/usr/bin/google-chrome"; "/usr/bin/chromium"];
     h_which := lookup_env [("google-chrome", "/usr/bin/google-chrome")];
     h_autoinstaller := false;
     h_install := Exn "ModuleNotFoundError";
     h_installed_isfile := fun _ => false |}.

(** [host_A] without [GOOGLE_CHROME_SHIM]. *)
Definition host_A' : Host :=
  {| h_environ := lookup_env [("CHROME_BIN", "/opt/stale/chrome")];
     h_isfile := h_isfile host_A;
     h_which := h_which host_A;
     h_autoinstaller := h_autoinstaller host_A;
     h_install := h_install host_A;
     h_installed_isfile := h_installed_isfile host_A |}.

(** Chromium in [/snap/bin] and no chromedriver: the autoinstaller fetches
    one into [/tmp]. *)
Definition host_I : Host :=
  {| h_environ := fun _ => None;
     h_isfile := mem_path ["/snap/bin/chromium"];
     h_which := fun _ => None;
     h_autoinstaller := true;
     h_install := Ok (Some "/tmp/chromedriver");
     h_installed_isfile := mem_path ["/tmp/chromedriver"] |}.

(** A host with no browser at all. *)
Definition host_none : Host :=
  {| h_environ := fun _ => None;
     h_isfile := fun _ => false;
     h_which := fun _ => None;
     h_autoinstaller := true;
     h_install := Exn "URLError: network unreachable";
     h_installed_isfile := fun _ => false |}.

(** A button whose card shows its address with surrounding blanks. *)
Definition btn_ws : button :=
  {| b_node := text_node 6 " Boost ";
     b_class := Ok (Some "cmn--btn usage-boost-button");
     b_card := Ok (mkContainer (text_node 106 "")
                               (Ok (text_node 107 (String (ascii_of_nat 133)
                                 ("  12 Elm Street " ++ String (ascii_of_nat 160) "")))));
     b_item := no_element; b_wrapper := no_element; b_preceding := no_element;
     b_scroll := Ok tt; b_click := Ok tt |}.

(** A button gone stale before its class attribute is read. *)
Definition btn_E : button :=
  {| b_node := text_node 7 " Boost ";
     b_class := Exn "stale element reference";
     b_card := card_with 108 "7 E Street";
     b_item := no_element; b_wrapper := no_element; b_preceding := no_element;
     b_scroll := Ok tt; b_click := Ok tt |}.

Definition env_R := page_env [(Ok 3%Z, Ok 3%Z, Ok 3%Z)] [btn_P; btn_E; btn_X].

(** A page whose only boostable button cannot be clicked. *)
Definition env_F := page_env [(Ok 1%Z, Ok 1%Z, Ok 1%Z)] [btn_Y].

(** The session stage with the given chromedriver and Chrome start. *)
Definition session_env (chromedriver_bin : option string) (start : Res unit) : Env :=
  {| e_chrome_bin := Some "/usr/bin/chromium";
     e_chromedriver_bin := chromedriver_bin;
     e_start := fun _ => start;
     e_login := fun _ => Ok tt;
     e_nav_listing := Ok tt;
     e_scroll_by := fun _ => Ok tt;
     e_height := fun _ => Ok 0%Z;
     e_poll := [];
     e_buttons := Ok [];
     e_shot := fun _ => Ok "iVBORw0KGgo=";
     e_quit := Ok tt |}.


(** ** Proof-side notions: frames of a stage *)

(** [m] relates its initial and final states by [R] on every run. *)
Definition steps (R : St -> St -> Prop) {A} (m : M A) : Prop :=
  forall s r s', m s = (r, s') -> R s s'.

(** The state a stage may not touch: addresses, driver, trace; the
    [boostable] list is related by [B]. *)
Record keeps (B : list entry -> list entry -> Prop) (s s' : St) : Prop := {
  k_addrs : s_clicked_addresses s' = s_clicked_addresses s;
  k_boost : B (s_boostable s) (s_boostable s');
  k_driver : s_driver s' = s_driver s;
  k_trace : s_trace s' = s_trace s
}.

(** No screenshot taken. *)
Definition quiet (s s' : St) : Prop :=
  s_shots s' = s_shots s /\ s_screenshot s' = s_screenshot s.

(** An entry the classifier accepted. *)
Definition valid_entry (x : entry) : Prop :=
  let '(_, b, norm) := x in
  match b_class b with
  | Ok cls => is_boostable norm (lower (or_empty cls)) = true
  | Exn _ => False
  end.

Definition grows (l l' : list entry) : Prop :=
  exists nw, l' = app l nw /\ Forall valid_entry nw.

Definition same (s s' : St) : Prop := keeps eq s s' /\ quiet s s'.
Definition same_grow (s s' : St) : Prop := keeps grows s s' /\ quiet s s'.


(** ** Outcome of the click batch, entry by entry *)

Definition entry_addr (x : entry) : option string := let '(a, _, _) := x in a.
Definition entry_btn (x : entry) : button := let '(_, b, _) := x in b.

(** The exception raised by scrolling to or clicking [b], if any. *)
Definition click_error (b : button) : option string :=
  match b_scroll b with
  | Exn e => Some e
  | Ok _ => match b_click b with Exn e => Some e | Ok _ => None end
  end.

Definition click_ok (x : entry) : bool :=
  match click_error (entry_btn x) with None => true | Some _ => false end.

(** The log line of attempt [i] on entry [x]. *)
Definition click_log (i : nat) (x : entry) : string :=
  let '(address, btn, text) := x in
  match click_error btn with
  | None => "Clicked boost for: " ++ or_default address "<address not found>"
            ++ " (text='" ++ text ++ "')"
  | Some ce => "Error clicking boost #" ++ show_nat (S i) ++ " ("
               ++ or_default address "unknown" ++ "): " ++ ce
  end.

(** Pair each entry with its index in [boostable]. *)
Fixpoint indexed (j : nat) (xs : list entry) : list (nat * entry) :=
  match xs with
  | [] => []
  | x :: xs' => (j, x) :: indexed (S j) xs'
  end.

Definition attempt_event (ix : nat * entry) : event :=
  EvAttempt (fst ix) (n_id (b_node (entry_btn (snd ix)))).

(** The attempts recorded in a trace: [(index, element id)]. *)
Fixpoint attempts (tr : list event) : list (nat * nat) :=
  match tr with
  | [] => []
  | EvAttempt i id :: tr' => (i, id) :: attempts tr'
  | _ :: tr' => attempts tr'
  end.

(** The number of [driver.quit()] calls and of sessions created. *)
Fixpoint quits (tr : list event) : nat :=
  match tr with
  | [] => 0
  | EvQuit :: tr' => S (quits tr')
  | _ :: tr' => quits tr'
  end.

Fixpoint sessions (tr : list event) : list chrome_options :=
  match tr with
  | [] => []
  | EvDriverCreated o :: tr' => o :: sessions tr'
  | _ :: tr' => sessions tr'
  end.

(** The entries [range(to_click)] visits. *)
Definition to_attempt (num_buttons : Z) (boostable : list entry) : list entry :=
  firstn (Z.to_nat (Z.min num_buttons (Z.of_nat (length boostable)))) boostable.

(** The normalised text [norm] of a button (lines 298-299). *)
Definition button_norm (b : button) : string :=
  py_join " " (py_split (lower (get_element_text_via_js (b_node b)))).

(** What one iteration of the filtering loop adds to [boostable]: nothing
    when reading the class raises or the classifier rejects the button. *)
Definition entry_of (b : button) : list entry :=
  match b_class b with
  | Exn _ => []
  | Ok cls =>
      if is_boostable (button_norm b) (lower (or_empty cls)) then
        [(match find_address_for_button b with Ok a => a | Exn _ => None end,
          b, button_norm b)]
      else []
  end.

(** No whitespace at either end. *)
Definition trimmed (s : string) : Prop :=
  lstrip s = s /\ lstrip (rev_string s) = rev_string s.

(** A polling round in which every count was read and none is positive. *)
Definition nothing_found (rd : Res Z * Res Z * Res Z) : Prop :=
  exists b c a, rd = (Ok b, Ok c, Ok a) /\ (b <= 0 /\ c <= 0 /\ a <= 0)%Z.

(** The message of the exception raised when no chromedriver is found. *)
Definition CHROMEDRIVER_MISSING :=
  "Chromedriver binary not found. Set CHROMEDRIVER_PATH or install chromium-driver in the image.".

(** A text taken as an address: [if addr: return addr]. *)
Definition good_address (r : Res (option string)) : Prop :=
  forall a, r = Ok (Some a) -> a <> "" /\ trimmed a.

(** A polling round that counts no button, card or address. *)
Definition zero_round (rd : Res Z * Res Z * Res Z) : Prop :=
  rd = (Ok 0%Z, Ok 0%Z, Ok 0%Z).

(** * Proofs *)

Example show_nat_ex : show_nat 1203 = "1203".
Proof. reflexivity. Qed.

Example norm_ex :
  py_join " " (py_split (lower "  Boost   THIS listing ")) = "boost this listing".
Proof. reflexivity. Qed.

(** ** Running a computation: inversion of [bind] and [try_except] *)

Lemma bind_inv {A B} (m : M A) (k : A -> M B) s r s' :
  bind m k s = (r, s') ->
  (exists a s1, m s = (Ok a, s1) /\ k a s1 = (r, s')) \/
  (exists e, m s = (Exn e, s') /\ r = Exn e).
Proof.
  unfold bind. destruct (m s) as [[a|e] s1] eqn:Hm; intros H.
  - left. eauto.
  - right. inversion H; subst. eauto.
Qed.

Lemma try_inv {A} (m : M A) (h : string -> M A) s r s' :
  try_except m h s = (r, s') ->
  (exists a, m s = (Ok a, s') /\ r = Ok a) \/
  (exists e s1, m s = (Exn e, s1) /\ h e s1 = (r, s')).
Proof.
  unfold try_except. destruct (m s) as [[a|e] s1] eqn:Hm; intros H.
  - left. inversion H; subst. eauto.
  - right. eauto.
Qed.

Ltac binv H :=
  apply bind_inv in H;
  destruct H as [(?a & ?s & ?Hm & H) | (?e & ?Hm & ?Hr)].

(** ** Frame relations, preserved stage by stage *)

Section Steps.
Variable R : St -> St -> Prop.
Hypothesis R_refl : forall s, R s s.
Hypothesis R_trans : forall s1 s2 s3, R s1 s2 -> R s2 s3 -> R s1 s3.

Lemma steps_ret {A} (a : A) : steps R (ret a).
Proof. intros s r s' H. inversion H; subst. apply R_refl. Qed.

Lemma steps_raise {A} (e : string) : steps R (@raise A e).
Proof. intros s r s' H. inversion H; subst. apply R_refl. Qed.

Lemma steps_lift {A} (x : Res A) : steps R (lift x).
Proof. intros s r s' H. inversion H; subst. apply R_refl. Qed.

Lemma steps_get : steps R get.
Proof. intros s r s' H. inversion H; subst. apply R_refl. Qed.

Lemma steps_bind {A B} (m : M A) (k : A -> M B) :
  steps R m -> (forall a, steps R (k a)) -> steps R (bind m k).
Proof.
  intros Hm Hk s r s' H. binv H.
  - apply R_trans with s0; [eapply Hm | eapply Hk]; eauto.
  - eapply Hm; eauto.
Qed.

Lemma steps_try {A} (m : M A) (h : string -> M A) :
  steps R m -> (forall e, steps R (h e)) -> steps R (try_except m h).
Proof.
  intros Hm Hh s r s' H. apply try_inv in H.
  destruct H as [(a & H1 & _) | (e & s1 & H1 & H2)].
  - eapply Hm; eauto.
  - apply R_trans with s1; [eapply Hm | eapply Hh]; eauto.
Qed.

End Steps.

Lemma keeps_refl B (HB : forall l, B l l) s : keeps B s s.
Proof. constructor; auto. Qed.

Lemma keeps_trans B (HB : forall l1 l2 l3, B l1 l2 -> B l2 l3 -> B l1 l3)
  s1 s2 s3 : keeps B s1 s2 -> keeps B s2 s3 -> keeps B s1 s3.
Proof.
  intros [] []. constructor; eauto; congruence.
Qed.

Lemma grows_refl l : grows l l.
Proof. exists []. rewrite app_nil_r. auto. Qed.

Lemma grows_trans l1 l2 l3 : grows l1 l2 -> grows l2 l3 -> grows l1 l3.
Proof.
  intros (n1 & -> & F1) (n2 & -> & F2). exists (app n1 n2).
  rewrite app_assoc. split; auto. apply Forall_app. auto.
Qed.

Lemma eq_trans3 (l1 l2 l3 : list entry) : l1 = l2 -> l2 = l3 -> l1 = l3.
Proof. congruence. Qed.

Lemma same_refl s : same s s.
Proof. split; [apply keeps_refl; auto | split; auto]. Qed.

Lemma same_trans s1 s2 s3 : same s1 s2 -> same s2 s3 -> same s1 s3.
Proof.
  intros [K1 [Q1 Q1']] [K2 [Q2 Q2']]. split.
  - eapply keeps_trans; eauto. apply eq_trans3.
  - split; congruence.
Qed.

Lemma same_grow_refl s : same_grow s s.
Proof. split; [apply keeps_refl, grows_refl | split; auto]. Qed.

Lemma same_grow_trans s1 s2 s3 :
  same_grow s1 s2 -> same_grow s2 s3 -> same_grow s1 s3.
Proof.
  intros [K1 [Q1 Q1']] [K2 [Q2 Q2']]. split.
  - eapply keeps_trans; eauto. apply grows_trans.
  - split; congruence.
Qed.

Lemma same_is_same_grow s s' : same s s' -> same_grow s s'.
Proof.
  intros [[] Q]. split; auto. constructor; auto. rewrite k_boost0. apply grows_refl.
Qed.

Lemma steps_log_same l : steps same (log l).
Proof. intros s r s' H. inversion H; subst. split; [constructor|split]; reflexivity. Qed.

Ltac steps_gen refl trans leaf :=
  repeat match goal with
  | |- steps _ (bind _ _) => apply (steps_bind _ trans); [ | intro ]
  | |- steps _ (try_except _ _) => apply (steps_try _ trans); [ | intro ]
  | |- steps _ (ret _) => apply (steps_ret _ refl)
  | |- steps _ (raise _) => apply (steps_raise _ refl)
  | |- steps _ (lift _) => apply (steps_lift _ refl)
  | |- steps _ get => apply (steps_get _ refl)
  | |- steps _ (match ?x with _ => _ end) => destruct x
  | |- steps _ (if ?x then _ else _) => destruct x
  | |- _ => leaf
  end.

Ltac steps_same leaf :=
  steps_gen same_refl same_trans ltac:(first [apply steps_log_same | leaf]).

Lemma login_flow_same env email password : steps same (login_flow env email password).
Proof. unfold login_flow. steps_same fail. Qed.

Lemma scroll_loop_same env fuel : forall loops h, steps same (scroll_loop env fuel loops h).
Proof.
  induction fuel as [|f IH]; intros loops h; simpl.
  - steps_same fail.
  - steps_same ltac:(apply IH).
Qed.

Lemma load_listing_same env : steps same (load_listing env).
Proof. unfold load_listing. steps_same ltac:(apply scroll_loop_same). Qed.

Lemma poll_loop_same rounds : steps same (poll_loop rounds).
Proof.
  induction rounds as [|[[rb rc] ra] rs IH]; simpl.
  - steps_same fail.
  - steps_same ltac:(apply IH).
Qed.

Lemma find_address_total b : exists a, find_address_for_button b = Ok a.
Proof.
  unfold find_address_for_button.
  destruct (find_address_body b) as [[a|]|e]; eauto.
Qed.

Lemma inspect_button_grow idx btn : steps same_grow (inspect_button idx btn).
Proof.
  intros s r s' H. unfold inspect_button in H.
  binv H; [|inversion Hm; subst; apply same_grow_refl].
  inversion Hm; subst. rename s0 into s.
  destruct (is_boostable _ _) eqn:Hb.
  - binv H; [|inversion Hm0; subst; apply same_grow_refl].
    inversion Hm0; subst. rename s0 into s.
    binv H; inversion Hm1; subst; inversion H; subst.
    split; [constructor; simpl; auto|split; reflexivity].
    eexists; split; [reflexivity|]. constructor; [|constructor].
    simpl. rewrite H1. exact Hb.
  - inversion H; subst. split; [constructor; simpl; auto|split; reflexivity].
    apply grows_refl.
Qed.

Lemma filter_buttons_grow : forall bs idx, steps same_grow (filter_buttons idx bs).
Proof.
  induction bs as [|b bs IH]; intros idx; simpl.
  - apply (steps_ret _ same_grow_refl).
  - apply (steps_bind _ same_grow_trans); [|intros; apply IH].
    apply (steps_try _ same_grow_trans).
    + apply inspect_button_grow.
    + intros e s r s' H. apply same_is_same_grow. eapply steps_log_same; eauto.
Qed.

(** ** The click batch *)

Lemma skipn_cons_nth (E : list entry) j x :
  nth_error E j = Some x -> skipn j E = x :: skipn (S j) E.
Proof.
  revert E. induction j as [|j IH]; intros [|y E] H; simpl in *; try discriminate.
  - inversion H; subst. reflexivity.
  - apply IH. exact H.
Qed.

Lemma nth_error_lt (E : list entry) j :
  j < length E -> exists x, nth_error E j = Some x.
Proof.
  intros H. destruct (nth_error E j) eqn:He; eauto.
  apply nth_error_None in He. lia.
Qed.

Lemma click_one_run i clicked s x :
  nth_error (s_boostable s) i = Some x ->
  click_one i clicked s =
  (Ok (if click_ok x then S clicked else clicked),
   {| s_logs := s_logs s ++ [click_log i x];
      s_clicked_addresses := app (s_clicked_addresses s)
                                 (if click_ok x then [entry_addr x] else []);
      s_screenshot := s_screenshot s; s_driver := s_driver s;
      s_shots := s_shots s; s_boostable := s_boostable s;
      s_trace := app (s_trace s) [attempt_event (i, x)] |}).
Proof.
  intros Hx. unfold click_one, bind, boostable_at. rewrite Hx.
  destruct x as [[address btn] text].
  unfold click_ok, click_log, click_error, try_except, record, lift,
    push_address, log, ret; simpl.
  destruct (b_scroll btn) as [[]|e1]; [destruct (b_click btn) as [[]|e2]|];
    simpl; rewrite ?app_nil_r, <- ?app_assoc; reflexivity.
Qed.

(** [click_loop] over [range(j, j + k)]: everything it does, in order. *)
Lemma click_loop_run k : forall j clicked s,
  j + k <= length (s_boostable s) ->
  let xs := firstn k (skipn j (s_boostable s)) in
  click_loop (seq j k) clicked s =
  (Ok (clicked + length (filter click_ok xs)),
   {| s_logs := s_logs s ++ map (fun ix => click_log (fst ix) (snd ix)) (indexed j xs);
      s_clicked_addresses := app (s_clicked_addresses s)
                                 (map entry_addr (filter click_ok xs));
      s_screenshot := s_screenshot s; s_driver := s_driver s;
      s_shots := s_shots s; s_boostable := s_boostable s;
      s_trace := app (s_trace s) (map attempt_event (indexed j xs)) |}).
Proof.
  induction k as [|k IH]; intros j clicked s Hlen xs; subst xs.
  - simpl. rewrite Nat.add_0_r, !app_nil_r. destruct s; reflexivity.
  - destruct (nth_error_lt (s_boostable s) j) as [x Hx]; [lia|].
    rewrite (skipn_cons_nth _ _ _ Hx).
    change (seq j (S k)) with (j :: seq (S j) k).
    change (click_loop (j :: seq (S j) k) clicked s)
      with (bind (click_one j clicked) (fun c => click_loop (seq (S j) k) c) s).
    unfold bind. rewrite (click_one_run _ _ _ _ Hx).
    rewrite IH; simpl; [|lia].
    cbn [firstn indexed map filter].
    destruct (click_ok x); simpl;
      rewrite <- ?app_assoc; simpl; repeat f_equal; lia.
Qed.

Lemma to_click_le n (E : list entry) :
  Z.to_nat (Z.min n (Z.of_nat (length E))) <= length E.
Proof. lia. Qed.

Lemma click_batch_run n s :
  let X := to_attempt n (s_boostable s) in
  click_batch n (s_boostable s) s =
  (Ok (length (filter click_ok X)),
   {| s_logs := s_logs s ++ map (fun ix => click_log (fst ix) (snd ix)) (indexed 0 X);
      s_clicked_addresses := app (s_clicked_addresses s)
                                 (map entry_addr (filter click_ok X));
      s_screenshot := s_screenshot s; s_driver := s_driver s;
      s_shots := s_shots s; s_boostable := s_boostable s;
      s_trace := app (s_trace s) (map attempt_event (indexed 0 X)) |}).
Proof.
  intros X. unfold click_batch.
  rewrite click_loop_run by (simpl; apply to_click_le). reflexivity.
Qed.

(** ** The other stages *)

Lemma ke_refl s : keeps eq s s.
Proof. apply keeps_refl. auto. Qed.
Lemma ke_trans s1 s2 s3 : keeps eq s1 s2 -> keeps eq s2 s3 -> keeps eq s1 s3.
Proof. apply keeps_trans. apply eq_trans3. Qed.
Lemma kg_refl s : keeps grows s s.
Proof. apply keeps_refl. apply grows_refl. Qed.
Lemma kg_trans s1 s2 s3 : keeps grows s1 s2 -> keeps grows s2 s3 -> keeps grows s1 s3.
Proof. apply keeps_trans. apply grows_trans. Qed.

Lemma steps_log_keeps B (HB : forall l, B l l) l : steps (keeps B) (log l).
Proof. intros s r s' H. inversion H; subst. constructor; simpl; auto. Qed.

Lemma steps_shot_keeps B (HB : forall l, B l l) env : steps (keeps B) (take_screenshot env).
Proof. intros s r s' H. inversion H; subst. constructor; simpl; auto. Qed.

Lemma steps_set_shot_keeps B (HB : forall l, B l l) v : steps (keeps B) (set_screenshot v).
Proof. intros s r s' H. inversion H; subst. constructor; simpl; auto. Qed.

Ltac keeps_leaf :=
  first [ apply steps_log_keeps | apply steps_shot_keeps | apply steps_set_shot_keeps ];
  first [ apply grows_refl | reflexivity ].

Lemma try_screenshot_keeps env ok ko : steps (keeps eq) (try_screenshot env ok ko).
Proof. unfold try_screenshot. steps_gen ke_refl ke_trans keeps_leaf. Qed.

Lemma except_handler_keeps env exc : steps (keeps eq) (except_handler env exc).
Proof. unfold except_handler. steps_gen ke_refl ke_trans keeps_leaf. Qed.

Lemma same_keeps (B : list entry -> list entry -> Prop) (HB : forall l, B l l)
  (A : Type) (m : M A) : steps same m -> steps (keeps B) m.
Proof.
  intros Hm s r s' H. destruct (Hm s r s' H) as [[] _].
  constructor; auto. rewrite k_boost0. apply HB.
Qed.

Lemma resolve_targets_keeps env : steps (keeps grows) (resolve_targets env).
Proof.
  unfold resolve_targets.
  steps_gen kg_refl kg_trans ltac:(first
    [ keeps_leaf
    | intros s r s' H; apply filter_buttons_grow in H; apply H
    | intros s r s' H; apply try_screenshot_keeps in H;
      destruct H; constructor; auto; rewrite k_boost0; apply grows_refl ]).
Qed.

Lemma filter_buttons_ok bs : forall idx s r s',
  filter_buttons idx bs s = (r, s') -> r = Ok tt.
Proof.
  induction bs as [|b bs IH]; intros idx s r s' H; simpl in H.
  - inversion H. reflexivity.
  - binv H.
    + eapply IH. exact H.
    + apply try_inv in Hm. destruct Hm as [(a & _ & Ha) | (e' & s1 & _ & Hh)];
        [discriminate|]. inversion Hh.
Qed.

(** [resolve_targets] returns [boostable], non-empty; when it raises,
    [boostable] is empty or as it was. *)
Lemma resolve_targets_result env s r s' :
  resolve_targets env s = (r, s') ->
  (forall E, r = Ok E -> E = s_boostable s' /\ E <> []) /\
  (forall e, r = Exn e -> s_boostable s' = [] \/ s_boostable s' = s_boostable s).
Proof.
  unfold resolve_targets. intros H.
  binv H; [|subst; inversion Hm; subst; split; [discriminate|auto]].
  inversion Hm; subst. rename s0 into s1.
  binv H; [|discriminate]. inversion Hm0; subst.
  binv H; [|apply filter_buttons_ok in Hm1; congruence].
  binv H; [|discriminate]. inversion Hm2; subst.
  binv H; [|discriminate]. inversion Hm3; subst.
  simpl in H |- *. destruct (s_boostable s0) as [|x xs] eqn:HE.
  - binv H.
    + inversion H; subst. apply try_screenshot_keeps in Hm4.
      destruct Hm4. simpl in *. split; [discriminate|]. left; congruence.
    + subst. apply try_screenshot_keeps in Hm4.
      destruct Hm4. simpl in *. split; [discriminate|]. left; congruence.
  - inversion H; subst. split; [|discriminate].
    intros E HE'. inversion HE'; subst. simpl. split; [auto|discriminate].
Qed.

Ltac crunch H :=
  repeat (simpl in H;
          match type of H with
          | context [match ?x with _ => _ end] => destruct x eqn:?
          | context [if ?x then _ else _] => destruct x eqn:?
          end).

Lemma acquire_session_run env h s r s' :
  acquire_session env h s = (r, s') ->
  s_clicked_addresses s' = s_clicked_addresses s /\
  s_boostable s' = s_boostable s /\ quiet s s' /\
  ((r = Ok tt /\ s_driver s' = true /\
    s_trace s' = app (s_trace s) [EvDriverCreated (build_options h (e_chrome_bin env))]) \/
   (exists e, r = Exn e /\ s_driver s' = s_driver s /\ s_trace s' = s_trace s)).
Proof.
  unfold acquire_session, bind, log, ret, raise, lift, set_driver. intros H.
  destruct (truthy (e_chromedriver_bin env));
    [destruct (e_start env (build_options h (e_chrome_bin env)))|];
    simpl in H; inversion H; subst; simpl;
    (split; [reflexivity|split; [reflexivity|split; [split; reflexivity|]]]);
    [left; auto | right; eauto | right; eauto].
Qed.

Lemma finally_run env s r s' :
  finally_block env s = (r, s') ->
  s_clicked_addresses s' = s_clicked_addresses s /\
  s_boostable s' = s_boostable s /\ s_screenshot s' = s_screenshot s /\
  s_trace s' = app (s_trace s) (if s_driver s then [EvQuit] else []).
Proof.
  unfold finally_block, try_except, bind, get, quit_driver, record, lift, log, ret.
  intros H. destruct (s_driver s) eqn:Hd; [destruct (e_quit env)|];
    simpl in H; inversion H; subst; simpl; rewrite ?app_nil_r; auto.
Qed.

Lemma except_handler_result env e s r s' :
  except_handler env e s = (r, s') ->
  r = Ok {| success := false; clicked_count := 0; clicked_addresses := [];
            debug_logs := s_logs s'; error := Some e;
            screenshot_base64 := s_screenshot s' |}.
Proof.
  unfold except_handler. intros H.
  binv H; [|discriminate]. binv H; [|discriminate].
  binv H.
  - unfold bind, get, ret in H. inversion H; subst. reflexivity.
  - apply try_inv in Hm1.
    destruct Hm1 as [(? & _ & Hx) | (? & ? & _ & Hx)]; [discriminate|].
    inversion Hx.
Qed.

Lemma poll_loop_zero rounds : forall s,
  Forall zero_round rounds ->
  exists s', poll_loop rounds s = (Ok None, s') /\ same s s'.
Proof.
  induction rounds as [|rd rs IH]; intros s HF.
  - exists s. split; [reflexivity|apply same_refl].
  - inversion HF as [|? ? Hz HF']; subst. unfold zero_round in Hz; subst.
    simpl. unfold bind at 1, lift at 1. unfold bind at 1, lift at 1.
    unfold bind at 1, lift at 1. unfold bind at 1.
    match goal with |- exists _, match log ?l ?s0 with _ => _ end = _ /\ _ =>
      destruct (IH (snd (log l s0)) HF') as (s' & Hr & Hs) end.
    exists s'. simpl in Hr |- *. rewrite Hr. split; [reflexivity|].
    eapply same_trans; [|exact Hs]. eapply steps_log_same. reflexivity.
Qed.

Lemma poll_for_content_run env s r s' :
  poll_for_content env s = (r, s') ->
  s_clicked_addresses s' = s_clicked_addresses s /\
  s_boostable s' = s_boostable s /\ s_driver s' = s_driver s /\
  s_trace s' = app (s_trace s) [EvPollStart] /\
  (Forall zero_round (e_poll env) ->
   r = Exn "No listing cards or buttons found after JS polling" /\
   s_shots s' = S (s_shots s) /\
   s_screenshot s' = match e_shot env (s_shots s) with
                     | Ok v => Some v
                     | Exn _ => s_screenshot s
                     end).
Proof.
  unfold poll_for_content. intros H. binv H; [|discriminate].
  inversion Hm; subst.
  assert (Hk : steps (keeps eq) (found <- poll_loop (e_poll env) ;;
     log ("[JS POLL RESULT] found_context="
       ++ (match found with Some _ => "('main', None)" | None => "None" end)
       ++ " found_count="
       ++ show_Z (match found with Some n => n | None => 0%Z end)) ;;
     match found with
     | Some _ => ret tt
     | None =>
        try_screenshot env "No cards/buttons found - saved screenshot (base64)"
                       "No cards/buttons found - screenshot failed" ;;
        raise "No listing cards or buttons found after JS polling"
     end)).
  { steps_gen ke_refl ke_trans ltac:(first
      [ keeps_leaf
      | apply same_keeps; [reflexivity | apply poll_loop_same]
      | apply try_screenshot_keeps ]). }
  destruct (Hk _ _ _ H) as [Ha Hb Hd Ht]. simpl in *.
  split; [auto|split; [auto|split; [auto|split; [auto|]]]].
  intros HF. destruct (poll_loop_zero (e_poll env)
    {| s_logs := s_logs s; s_clicked_addresses := s_clicked_addresses s;
       s_screenshot := s_screenshot s; s_driver := s_driver s;
       s_shots := s_shots s; s_boostable := s_boostable s;
       s_trace := app (s_trace s) [EvPollStart] |} HF) as (s2 & Hp & [_ [Q1 Q2]]).
  unfold bind at 1 in H. rewrite Hp in H. simpl in Q1, Q2.
  unfold try_screenshot, bind, try_except, take_screenshot, set_screenshot,
    log, raise in H. simpl in H.
  destruct (e_shot env (s_shots s2)) eqn:Hs; simpl in H; inversion H; subst;
    simpl; rewrite Q1 in Hs; rewrite Hs; auto.
Qed.

(** ** A whole run of the worker *)

Ltac bsplit H a s Hm :=
  apply bind_inv in H; destruct H as [(a & s & Hm & H) | (?e & Hm & ?Hr)].

(** Every run returns a response; either the batch ran (success) or the
    [except] handler built the response. *)
Lemma worker_cases env email password n h w r sf :
  selenium_boost_worker env email password n h w = (r, sf) ->
  let opts := build_options h (e_chrome_bin env) in
  Forall valid_entry (s_boostable sf) /\
  ((let E := s_boostable sf in
    let X := to_attempt n E in
    E <> [] /\
    (exists logs0 shot0,
       r = Ok {| success := true;
                 clicked_count := Z.of_nat (length (filter click_ok X));
                 clicked_addresses := map entry_addr (filter click_ok X);
                 debug_logs := logs0 ++ map (fun ix => click_log (fst ix) (snd ix))
                                            (indexed 0 X);
                 error := None; screenshot_base64 := shot0 |}) /\
    s_trace sf = app [EvDriverCreated opts; EvPollStart]
                     (app (map attempt_event (indexed 0 X)) [EvQuit]))
   \/
   (exists e logs shot,
      r = Ok {| success := false; clicked_count := 0; clicked_addresses := [];
                debug_logs := logs; error := Some e; screenshot_base64 := shot |} /\
      s_boostable sf = [] /\
      (s_trace sf = [] \/ s_trace sf = [EvDriverCreated opts; EvQuit] \/
       s_trace sf = [EvDriverCreated opts; EvPollStart; EvQuit]))).
Proof.
  unfold selenium_boost_worker.
  destruct (try_except _ _ init_st) as [r1 s1] eqn:Ht.
  destruct (finally_block env s1) as [u s2] eqn:Hf.
  intros H. inversion H; subst; clear H. set (opts := build_options h (e_chrome_bin env)).
  apply finally_run in Hf. destruct Hf as (Fa & Fb & Fs & Ft).
  apply try_inv in Ht.
  destruct Ht as [(resp & Hb & ->) | (e & s1' & Hb & Hh)].
  - (* the body returned *)
    unfold worker_body in Hb.
    bsplit Hb u1 sA HA; [|discriminate].
    apply acquire_session_run in HA. destruct HA as (Aa & Ab & _ & HA).
    destruct HA as [(_ & Ad & At) | (? & Hx & _)]; [|discriminate].
    bsplit Hb u2 sB HB; [|discriminate].
    apply login_flow_same in HB. destruct HB as [[Ba Bb Bd Bt] _].
    bsplit Hb u3 sC HC; [|discriminate].
    apply load_listing_same in HC. destruct HC as [[Ca Cb Cd Ct] _].
    bsplit Hb u4 sD HD; [|discriminate].
    apply poll_for_content_run in HD. destruct HD as (Da & Db & Dd & Dt & _).
    bsplit Hb E sE HE; [|discriminate].
    pose proof (resolve_targets_result _ _ _ _ HE) as [HE1 _].
    destruct (HE1 E eq_refl) as [HEq HEne].
    apply resolve_targets_keeps in HE. destruct HE as [Ea Eb Ed Et].
    bsplit Hb c sF HF; [|subst E; rewrite click_batch_run in HF; discriminate].
    subst E. rewrite click_batch_run in HF. inversion HF; subst; clear HF.
    unfold bind, get, ret in Hb. inversion Hb; subst; clear Hb.
    simpl in *. rewrite Fb. destruct Eb as (nw & Enw & Fnw).
    assert (HsD : s_boostable sD = []) by congruence.
    rewrite HsD in Enw. simpl in Enw.
    split; [rewrite Enw; exact Fnw|]. left.
    split; [exact HEne|]. split.
    + rewrite Ea, Da, Ca, Ba, Aa. simpl.
      exists (s_logs sE), (s_screenshot sE). reflexivity.
    + rewrite Ft, Ed, Dd, Cd, Bd, Ad, Et, Dt, Ct, Bt, At. simpl.
      reflexivity.
  - (* the body raised; the handler built the response *)
    pose proof (except_handler_result _ _ _ _ _ Hh) as Hr.
    apply except_handler_keeps in Hh. destruct Hh as [Ha Hb' Hd Ht].
    assert (Hshape : s_boostable s1' = [] /\
      ((s_driver s1' = false /\ s_trace s1' = []) \/
       (s_driver s1' = true /\ s_trace s1' = [EvDriverCreated opts]) \/
       (s_driver s1' = true /\ s_trace s1' = [EvDriverCreated opts; EvPollStart]))).
    { unfold worker_body in Hb. unfold opts.
      bsplit Hb u1 sA HA.
      2:{ apply acquire_session_run in HA. destruct HA as (Aa & Ab & _ & HA).
          destruct HA as [(? & _) | (? & _ & Ad & At)]; [discriminate|].
          split; [exact Ab|]. left; auto. }
      apply acquire_session_run in HA. destruct HA as (Aa & Ab & _ & HA).
      destruct HA as [(_ & Ad & At) | (? & Hx & _)]; [|discriminate].
      simpl in Ab, At.
      bsplit Hb u2 sB HB.
      2:{ apply login_flow_same in HB. destruct HB as [[Ba Bb Bd Bt] _].
          split; [congruence|]. right; left; split; congruence. }
      apply login_flow_same in HB. destruct HB as [[Ba Bb Bd Bt] _].
      bsplit Hb u3 sC HC.
      2:{ apply load_listing_same in HC. destruct HC as [[Ca Cb Cd Ct] _].
          split; [congruence|]. right; left; split; congruence. }
      apply load_listing_same in HC. destruct HC as [[Ca Cb Cd Ct] _].
      bsplit Hb u4 sD HD.
      2:{ apply poll_for_content_run in HD. destruct HD as (Da & Db & Dd & Dt & _).
          split; [congruence|]. right; right; split; [congruence|].
          rewrite Dt, Ct, Bt, At. reflexivity. }
      apply poll_for_content_run in HD. destruct HD as (Da & Db & Dd & Dt & _).
      bsplit Hb E sE HE.
      2:{ pose proof (resolve_targets_result _ _ _ _ HE) as [_ HE2].
          apply resolve_targets_keeps in HE. destruct HE as [Ea Eb Ed Et].
          split.
          - destruct (HE2 _ eq_refl) as [H0 | H0]; rewrite H0; [reflexivity|congruence].
          - right; right; split; [congruence|]. rewrite Et, Dt, Ct, Bt, At.
            reflexivity. }
      pose proof (resolve_targets_result _ _ _ _ HE) as [HE1 _].
      destruct (HE1 E eq_refl) as [HEq _]. subst E.
      bsplit Hb c sF HF; rewrite click_batch_run in HF; inversion HF; subst.
      unfold bind, get, ret in Hb. discriminate. }
    destruct Hshape as [HB0 Hsh].
    assert (HB1 : s_boostable sf = []) by congruence.
    split; [rewrite HB1; constructor|]. right.
    exists e, (s_logs s1), (s_screenshot s1). split; [exact Hr|].
    split; [exact HB1|].
    rewrite Ft, Ht, Hd.
    destruct Hsh as [(-> & ->) | [(-> & ->) | (-> & ->)]]; auto.
Qed.

Lemma to_attempt_length n E :
  (0 <= n)%Z ->
  Z.of_nat (length (to_attempt n E)) = Z.min n (Z.of_nat (length E)).
Proof.
  intros Hn. unfold to_attempt. rewrite length_firstn. lia.
Qed.

Lemma attempts_app t1 t2 : attempts (app t1 t2) = app (attempts t1) (attempts t2).
Proof.
  induction t1 as [|ev t1 IH]; simpl; auto. destruct ev; simpl; rewrite ?IH; auto.
Qed.

Lemma attempts_events j xs :
  attempts (map attempt_event (indexed j xs))
  = map (fun ix => (fst ix, n_id (b_node (entry_btn (snd ix))))) (indexed j xs).
Proof.
  revert j. induction xs as [|x xs IH]; intros j; simpl; auto. rewrite IH. auto.
Qed.

Lemma quits_app t1 t2 : quits (app t1 t2) = quits t1 + quits t2.
Proof.
  induction t1 as [|ev t1 IH]; simpl; auto. destruct ev; simpl; rewrite ?IH; auto.
Qed.

Lemma sessions_app t1 t2 : sessions (app t1 t2) = app (sessions t1) (sessions t2).
Proof.
  induction t1 as [|ev t1 IH]; simpl; auto. destruct ev; simpl; rewrite ?IH; auto.
Qed.

Lemma quits_events j xs : quits (map attempt_event (indexed j xs)) = 0.
Proof. revert j. induction xs as [|x xs IH]; intros j; simpl; auto. Qed.

Lemma sessions_events j xs : sessions (map attempt_event (indexed j xs)) = [].
Proof. revert j. induction xs as [|x xs IH]; intros j; simpl; auto. Qed.

(** ** The claims *)

(** C1: every run returns a report, and in it [clicked_count] equals
    [len(clicked_addresses)], on the success path and on the failure path. *)
Theorem clicked_count_eq_len_addresses env email password n h w r sf :
  selenium_boost_worker env email password n h w = (r, sf) ->
  exists resp, r = Ok resp /\
    clicked_count resp = Z.of_nat (length (clicked_addresses resp)).
Proof.
  intros H. apply worker_cases in H.
  destruct H as [_ [(_ & (l & sh & ->) & _) | (e & l & sh & -> & _)]];
    eexists; split; try reflexivity; simpl.
  rewrite length_map. reflexivity.
Qed.

(** C2: for a request with [num_buttons >= 1], the returned [clicked_count]
    is at most [min(num_buttons, len(boostable))], where [boostable] is the
    filtered list the run built (empty when the run stopped before it). *)
Theorem clicked_count_le_min env email password n h w r sf :
  (1 <= n)%Z ->
  selenium_boost_worker env email password n h w = (r, sf) ->
  exists resp, r = Ok resp /\
    (clicked_count resp <= Z.min n (Z.of_nat (length (s_boostable sf))))%Z.
Proof.
  intros Hn H. apply worker_cases in H.
  destruct H as [_ [(_ & (l & sh & ->) & _) | (e & l & sh & -> & HE & _)]];
    eexists; (split; [reflexivity|]); simpl.
  - rewrite <- to_attempt_length by lia.
    pose proof (filter_length_le click_ok (to_attempt n (s_boostable sf))). lia.
  - rewrite HE. simpl. lia.
Qed.

(** C3: when [boostable] is non-empty, the batch makes exactly
    [min(num_buttons, len(boostable))] click attempts, on the first that many
    entries of [boostable], in order: attempt [i] is on [boostable[i]]. *)
Theorem attempts_are_first_min env email password n h w r sf :
  (1 <= n)%Z ->
  selenium_boost_worker env email password n h w = (r, sf) ->
  s_boostable sf <> [] ->
  let E := s_boostable sf in
  let k := Z.to_nat (Z.min n (Z.of_nat (length E))) in
  length (attempts (s_trace sf)) = k /\
  attempts (s_trace sf) =
  map (fun ix => (fst ix, n_id (b_node (entry_btn (snd ix))))) (indexed 0 (firstn k E)).
Proof.
  intros Hn H Hne E k. apply worker_cases in H.
  destruct H as [_ [(_ & _ & Ht) | (_ & _ & _ & _ & HE & _)]]; [|contradiction].
  rewrite Ht. simpl. rewrite attempts_app, attempts_events. simpl.
  rewrite app_nil_r. split; [|reflexivity].
  rewrite length_map.
  assert (Hlen : forall j xs, length (indexed j xs) = length xs).
  { intros j xs. revert j. induction xs; intros; simpl; auto. }
  rewrite Hlen. unfold to_attempt. rewrite length_firstn. fold E. subst k. lia.
Qed.

(** C8: on every path the session is released exactly once when it was
    created, as the last event of the run, and never when no session was
    created: the trace has no session and no [driver.quit()], or one session
    and one [driver.quit()] at its end. *)
Theorem session_released_once env email password n h w r sf :
  selenium_boost_worker env email password n h w = (r, sf) ->
  (sessions (s_trace sf) = [] /\ quits (s_trace sf) = 0) \/
  (length (sessions (s_trace sf)) = 1 /\ quits (s_trace sf) = 1 /\
   exists tr, s_trace sf = app tr [EvQuit]).
Proof.
  intros H. apply worker_cases in H.
  destruct H as [_ [(_ & _ & Ht) | (_ & _ & _ & _ & _ & [Ht | [Ht | Ht]])]];
    rewrite Ht.
  - right. simpl. rewrite sessions_app, quits_app, sessions_events, quits_events.
    simpl. split; [reflexivity|split; [reflexivity|]].
    eexists (_ :: _ :: _). simpl. reflexivity.
  - left. auto.
  - right. simpl. split; [reflexivity|split; [reflexivity|]].
    exists [EvDriverCreated (build_options h (e_chrome_bin env))]. reflexivity.
  - right. simpl. split; [reflexivity|split; [reflexivity|]].
    exists [EvDriverCreated (build_options h (e_chrome_bin env)); EvPollStart].
    reflexivity.
Qed.

(** C10: every report with [success=false] has [clicked_count = 0] and an
    empty [clicked_addresses]. *)
Theorem failed_run_reports_no_clicks env email password n h w resp sf :
  selenium_boost_worker env email password n h w = (Ok resp, sf) ->
  success resp = false ->
  clicked_count resp = 0%Z /\ clicked_addresses resp = [].
Proof.
  intros H Hs. apply worker_cases in H.
  destruct H as [_ [(_ & (l & sh & Hr) & _) | (e & l & sh & Hr & _)]];
    inversion Hr; subst; [discriminate|auto].
Qed.

(** ** Lemmas for the remaining claims *)

Lemma except_handler_shot env e s r s' :
  except_handler env e s = (r, s') -> s_driver s = true ->
  s_screenshot s' = match e_shot env (s_shots s) with
                    | Ok v => Some v
                    | Exn _ => s_screenshot s
                    end.
Proof.
  intros H Hd.
  unfold except_handler, log, bind, get, try_except, take_screenshot,
    set_screenshot, ret in H. simpl in H. rewrite Hd in H.
  revert H. cbn. destruct (e_shot env (s_shots s)); cbn; intros H;
    inversion H; subst; reflexivity.
Qed.

Lemma prefixb_lower p : forall s, prefixb p s = true -> prefixb (lower p) (lower s) = true.
Proof.
  induction p as [|a p IH]; intros [|b s] H; simpl in *; try discriminate; auto.
  apply andb_true_iff in H as [Hab Hp]. apply Ascii.eqb_eq in Hab. subst.
  rewrite Ascii.eqb_refl. simpl. auto.
Qed.

Lemma contains_lower p s : contains p s = true -> contains (lower p) (lower s) = true.
Proof.
  induction s as [|c s IH]; intros H; simpl in *.
  - apply orb_true_iff in H as [H|H]; [|discriminate].
    apply prefixb_lower in H. simpl in H. rewrite H. reflexivity.
  - apply orb_true_iff in H as [H|H].
    + apply prefixb_lower in H. simpl in H. rewrite H. reflexivity.
    + rewrite IH by exact H. apply orb_true_r.
Qed.

Lemma indexed_nth xs : forall j k x,
  nth_error xs k = Some x -> In (j + k, x) (indexed j xs).
Proof.
  induction xs as [|y xs IH]; intros j k x H; [destruct k; discriminate|].
  destruct k as [|k]; simpl in *.
  - inversion H; subst. left. f_equal. lia.
  - right. replace (j + S k) with (S j + k) by lia. apply IH. exact H.
Qed.

Lemma to_attempt_nil n : to_attempt n [] = [].
Proof. unfold to_attempt. simpl. destruct (Z.to_nat _); reflexivity. Qed.

(** C4: when the attempt on entry [k] of the batch fails (its scroll or its
    script click raises), the exception is caught and logged as
    ["Error clicking boost #<k+1> (<address or unknown>): <exc>"], the entry's
    address is not appended ([clicked_addresses] and [clicked_count] count the
    successful attempts only), every entry of the batch is still attempted,
    and the run reports [success=true]. *)
Theorem failed_click_isolated env email password n h w r sf k x :
  selenium_boost_worker env email password n h w = (r, sf) ->
  nth_error (to_attempt n (s_boostable sf)) k = Some x ->
  click_ok x = false ->
  let X := to_attempt n (s_boostable sf) in
  exists resp ce,
    r = Ok resp /\ success resp = true /\
    click_error (entry_btn x) = Some ce /\
    In ("Error clicking boost #" ++ show_nat (S k) ++ " ("
        ++ or_default (entry_addr x) "unknown" ++ "): " ++ ce) (debug_logs resp) /\
    clicked_addresses resp = map entry_addr (filter click_ok X) /\
    clicked_count resp = Z.of_nat (length (filter click_ok X)) /\
    attempts (s_trace sf) =
    map (fun ix => (fst ix, n_id (b_node (entry_btn (snd ix))))) (indexed 0 X).
Proof.
  intros H Hk Hok X. apply worker_cases in H.
  destruct H as [_ [(_ & (l & sh & ->) & Ht) | (_ & _ & _ & _ & HE & _)]].
  - unfold click_ok in Hok. destruct (click_error (entry_btn x)) as [ce|] eqn:Hce;
      [|discriminate].
    eexists; exists ce. split; [reflexivity|]. split; [reflexivity|].
    split; [reflexivity|]. split; [|split; [reflexivity|split; [reflexivity|]]].
    + simpl. apply in_or_app. right.
      apply in_map_iff. exists (k, x). split.
      * simpl. unfold click_log. destruct x as [[address btn] text].
        simpl in Hce |- *. rewrite Hce. reflexivity.
      * apply (indexed_nth _ 0). exact Hk.
    + rewrite Ht. simpl. rewrite attempts_app, attempts_events. simpl.
      rewrite app_nil_r. reflexivity.
  - rewrite HE, to_attempt_nil in Hk. destruct k; discriminate.
Qed.

(** C5: when the run reaches the JS polling loop and every polling round
    within the timeout counts zero buttons, zero cards and zero addresses,
    the run returns [success=false] with [error] set to
    ["No listing cards or buttons found after JS polling"].  The session is
    live at both capture points (lines 285 and 354); the screenshot field
    holds the error handler's capture, or else the polling-failure capture,
    and is absent only when both capture calls raise. *)
Theorem poll_timeout_fails env email password n h w r sf :
  selenium_boost_worker env email password n h w = (r, sf) ->
  In EvPollStart (s_trace sf) ->
  Forall zero_round (e_poll env) ->
  exists resp, r = Ok resp /\ success resp = false /\
    error resp = Some "No listing cards or buttons found after JS polling" /\
    screenshot_base64 resp =
      match e_shot env 1 with
      | Ok v => Some v
      | Exn _ => match e_shot env 0 with Ok v => Some v | Exn _ => None end
      end.
Proof.
  unfold selenium_boost_worker.
  destruct (try_except _ _ init_st) as [r1 s1] eqn:Ht.
  destruct (finally_block env s1) as [u s2] eqn:Hf.
  intros H Hin HZ. inversion H; subst; clear H.
  apply finally_run in Hf. destruct Hf as (_ & _ & _ & Ft). rewrite Ft in Hin.
  apply try_inv in Ht.
  destruct Ht as [(resp & Hb & ->) | (e & s1' & Hb & Hh)].
  - (* the body cannot return: polling raises *)
    unfold worker_body in Hb.
    bsplit Hb u1 sA HA; [|discriminate].
    bsplit Hb u2 sB HB; [|discriminate].
    bsplit Hb u3 sC HC; [|discriminate].
    bsplit Hb u4 sD HD; [|discriminate].
    apply poll_for_content_run in HD. destruct HD as (_ & _ & _ & _ & HD).
    destruct (HD HZ) as [Hx _]. discriminate.
  - pose proof (except_handler_result _ _ _ _ _ Hh) as Hr.
    pose proof Hh as Hh'. apply except_handler_keeps in Hh'.
    destruct Hh' as [_ _ Hd Htr]. rewrite Htr, Hd in Hin.
    unfold worker_body in Hb.
    bsplit Hb u1 sA HA.
    2:{ apply acquire_session_run in HA. destruct HA as (_ & _ & _ & HA).
        destruct HA as [(? & _) | (? & _ & Ad & At)]; [discriminate|].
        simpl in Ad, At. rewrite Ad, At in Hin. destruct Hin. }
    apply acquire_session_run in HA. destruct HA as (_ & _ & [QA QA'] & HA).
    destruct HA as [(_ & Ad & At) | (? & Hx & _)]; [|discriminate].
    simpl in QA, QA', At.
    bsplit Hb u2 sB HB.
    2:{ apply login_flow_same in HB. destruct HB as [[_ _ Bd Bt] _].
        rewrite Bd, Ad, Bt, At in Hin. simpl in Hin.
        destruct Hin as [Hx|[Hx|[]]]; discriminate. }
    apply login_flow_same in HB. destruct HB as [[_ _ Bd Bt] [QB QB']].
    bsplit Hb u3 sC HC.
    2:{ apply load_listing_same in HC. destruct HC as [[_ _ Cd Ct] _].
        rewrite Cd, Bd, Ad, Ct, Bt, At in Hin. simpl in Hin.
        destruct Hin as [Hx|[Hx|[]]]; discriminate. }
    apply load_listing_same in HC. destruct HC as [[_ _ Cd Ct] [QC QC']].
    bsplit Hb u4 sD HD.
    + apply poll_for_content_run in HD. destruct HD as (_ & _ & _ & _ & HD).
      destruct (HD HZ) as [Hx _]. discriminate.
    + apply poll_for_content_run in HD.
      destruct HD as (_ & _ & Dd & _ & HD). destruct (HD HZ) as (He & Hs & Hsh).
      assert (e = "No listing cards or buttons found after JS polling")
        by congruence. subst e.
      eexists. split; [exact Hr|]. split; [reflexivity|]. split; [reflexivity|].
      simpl. rewrite (except_handler_shot _ _ _ _ _ Hh) by congruence.
      rewrite Hs, Hsh, QC, QB, QA, QC', QB', QA'. reflexivity.
Qed.

(** C6: a button whose class attribute contains [usage-boost-inprogress]
    is rejected by the classifier whatever its normalised text is, and is
    never an entry of [boostable]. *)
Theorem inprogress_class_excluded env email password n h w r sf b c :
  selenium_boost_worker env email password n h w = (r, sf) ->
  b_class b = Ok (Some c) ->
  contains "usage-boost-inprogress" c = true ->
  (forall norm, is_boostable norm (lower (or_empty (Some c))) = false) /\
  (forall x, In x (s_boostable sf) -> entry_btn x <> b).
Proof.
  intros H Hc Hm.
  assert (Hcls : forall norm, is_boostable norm (lower (or_empty (Some c))) = false).
  { intros norm. unfold is_boostable, in_progress. simpl.
    apply contains_lower in Hm.
    replace (lower "usage-boost-inprogress") with "usage-boost-inprogress"
      in Hm by reflexivity.
    rewrite Hm. simpl. apply andb_false_r. }
  split; [exact Hcls|].
  apply worker_cases in H. destruct H as [HF _].
  intros x Hx Hb. rewrite Forall_forall in HF. specialize (HF x Hx).
  destruct x as [[address btn] norm]. simpl in Hb. subst btn.
  unfold valid_entry in HF. rewrite Hc in HF. rewrite Hcls in HF. discriminate.
Qed.

(** C7: [find_address_for_button] is total.  When none of the three
    ancestor XPaths finds a container and no preceding address element
    exists, it returns [None] (no exception reaches the caller). *)
Theorem address_absent_without_context b :
  (forall xp, In xp [XP_CARD; XP_ITEM; XP_WRAPPER] ->
              exists e, find_ancestor b xp = Exn e) ->
  (exists e, b_preceding b = Exn e) ->
  find_address_for_button b = Ok None.
Proof.
  intros Hanc [ep Hp].
  destruct (Hanc XP_CARD) as [e1 H1]; [simpl; auto|].
  destruct (Hanc XP_ITEM) as [e2 H2]; [simpl; auto|].
  destruct (Hanc XP_WRAPPER) as [e3 H3]; [simpl; auto|].
  unfold find_address_for_button, find_address_body.
  rewrite H1. simpl. rewrite H2. simpl. rewrite H3. simpl. rewrite Hp.
  reflexivity.
Qed.

(** C9 (as the code does it): every session is started with exactly the
    arguments [--headless=new] (only when [headless]), [--no-sandbox],
    [--disable-dev-shm-usage], [--disable-gpu], [--window-size=1920,1080],
    [--lang=en-US], the detected Chrome binary as [binary_location], no
    experimental option, and hence no anti-automation suppression. *)
Theorem session_options_fixed env email password n h w r sf :
  selenium_boost_worker env email password n h w = (r, sf) ->
  forall o, In o (sessions (s_trace sf)) ->
  o_args o = app (if h then ["--headless=new"] else [])
                 ["--no-sandbox"; "--disable-dev-shm-usage"; "--disable-gpu";
                  "--window-size=1920,1080"; "--lang=en-US"] /\
  o_binary_location o = (if truthy (e_chrome_bin env) then e_chrome_bin env else None) /\
  o_experimental o = [] /\
  suppresses_automation_flag o = false.
Proof.
  intros H o Ho. apply worker_cases in H.
  assert (Hopt : o = build_options h (e_chrome_bin env)).
  { destruct H as [_ [(_ & _ & Ht) | (_ & _ & _ & _ & _ & [Ht | [Ht | Ht]])]];
      rewrite Ht in Ho; simpl in Ho;
      rewrite ?sessions_app, ?sessions_events in Ho; simpl in Ho;
      [| contradiction | ..]; destruct Ho as [Ho|[]]; auto. }
  subst o. split; [reflexivity|split; [reflexivity|split; [reflexivity|]]].
  destruct h; reflexivity.
Qed.

(** C9: counterexample.  On a run that starts a session, the session's
    options do not hide the automation flag. *)
Lemma automation_flag_not_suppressed :
  sessions (s_trace (snd (selenium_boost_worker env_C "user@example.org" "pw" 3 true 25)))
  = [build_options true (Some "/usr/bin/chromium")] /\
  suppresses_automation_flag (build_options true (Some "/usr/bin/chromium")) = false.
Proof. split; vm_compute; reflexivity. Qed.

(** ** Witnesses: each claim's hypotheses hold on a concrete run *)

Lemma clicked_count_eq_len_addresses_witness :
  let p := selenium_boost_worker env_C "user@example.org" "pw" 3%Z true 25%Z in
  exists resp, fst p = Ok resp /\
    clicked_count resp = Z.of_nat (length (clicked_addresses resp)).
Proof.
  intros p.
  apply (clicked_count_eq_len_addresses env_C "user@example.org" "pw" 3%Z true 25%Z
           (fst p) (snd p)).
  vm_compute. reflexivity.
Defined.

Lemma clicked_count_le_min_witness :
  let p := selenium_boost_worker env_C "user@example.org" "pw" 3%Z true 25%Z in
  exists resp, fst p = Ok resp /\
    (clicked_count resp <= Z.min 3 (Z.of_nat (length (s_boostable (snd p)))))%Z.
Proof.
  intros p.
  apply (clicked_count_le_min env_C "user@example.org" "pw" 3%Z true 25%Z
           (fst p) (snd p)).
  - lia.
  - vm_compute. reflexivity.
Defined.

Lemma attempts_are_first_min_witness :
  let p := selenium_boost_worker env_C "user@example.org" "pw" 2%Z true 25%Z in
  let E := s_boostable (snd p) in
  let k := Z.to_nat (Z.min 2 (Z.of_nat (length E))) in
  length (attempts (s_trace (snd p))) = k /\
  attempts (s_trace (snd p)) =
  map (fun ix => (fst ix, n_id (b_node (entry_btn (snd ix))))) (indexed 0 (firstn k E)).
Proof.
  intros p.
  apply (attempts_are_first_min env_C "user@example.org" "pw" 2%Z true 25%Z
           (fst p) (snd p)).
  - lia.
  - vm_compute. reflexivity.
  - vm_compute. discriminate.
Defined.

Lemma failed_click_isolated_witness :
  let p := selenium_boost_worker env_C "user@example.org" "pw" 3%Z true 25%Z in
  let x := (Some "2 Y Street", btn_Y, "boost") in
  let X := to_attempt 3 (s_boostable (snd p)) in
  exists resp ce,
    fst p = Ok resp /\ success resp = true /\
    click_error (entry_btn x) = Some ce /\
    In ("Error clicking boost #" ++ show_nat 2 ++ " ("
        ++ or_default (entry_addr x) "unknown" ++ "): " ++ ce) (debug_logs resp) /\
    clicked_addresses resp = map entry_addr (filter click_ok X) /\
    clicked_count resp = Z.of_nat (length (filter click_ok X)) /\
    attempts (s_trace (snd p)) =
    map (fun ix => (fst ix, n_id (b_node (entry_btn (snd ix))))) (indexed 0 X).
Proof.
  intros p x.
  apply (failed_click_isolated env_C "user@example.org" "pw" 3%Z true 25%Z
           (fst p) (snd p) 1 x).
  - vm_compute. reflexivity.
  - vm_compute. reflexivity.
  - vm_compute. reflexivity.
Defined.

Lemma poll_timeout_fails_witness :
  let p := selenium_boost_worker env_P "user@example.org" "pw" 1%Z true 25%Z in
  exists resp, fst p = Ok resp /\ success resp = false /\
    error resp = Some "No listing cards or buttons found after JS polling" /\
    screenshot_base64 resp =
      match e_shot env_P 1 with
      | Ok v => Some v
      | Exn _ => match e_shot env_P 0 with Ok v => Some v | Exn _ => None end
      end.
Proof.
  intros p.
  apply (poll_timeout_fails env_P "user@example.org" "pw" 1%Z true 25%Z
           (fst p) (snd p)).
  - vm_compute. reflexivity.
  - vm_compute. auto.
  - vm_compute. repeat constructor.
Defined.

(** Counterexample to C5 as first stated (a screenshot is captured when the
    session is still open): on a live session whose two screenshot calls
    raise, the polling failure is reported with no screenshot at all. *)
Lemma poll_capture_failure_no_screenshot :
  let p := selenium_boost_worker env_P_noshot "user@example.org" "pw" 1%Z true 25%Z in
  let resp := match fst p with Ok v => v | Exn _ => no_response end in
  fst p = Ok resp /\ success resp = false /\
  error resp = Some "No listing cards or buttons found after JS polling" /\
  screenshot_base64 resp = None /\
  s_trace (snd p) =
    [EvDriverCreated (build_options true (Some "/usr/bin/chromium")); EvPollStart; EvQuit].
Proof.
  vm_compute. repeat split.
Qed.

Lemma inprogress_class_excluded_witness :
  let p := selenium_boost_worker env_D "user@example.org" "pw" 2%Z true 25%Z in
  (forall norm, is_boostable norm
     (lower (or_empty (Some "cmn--btn usage-boost-button usage-boost-inprogress"))) = false) /\
  (forall x, In x (s_boostable (snd p)) -> entry_btn x <> btn_P).
Proof.
  intros p.
  apply (inprogress_class_excluded env_D "user@example.org" "pw" 2%Z true 25%Z
           (fst p) (snd p) btn_P).
  - vm_compute. reflexivity.
  - reflexivity.
  - vm_compute. reflexivity.
Defined.

Lemma address_absent_without_context_witness :
  find_address_for_button btn_lone = Ok None.
Proof.
  apply address_absent_without_context.
  - intros xp Hxp. simpl in Hxp.
    destruct Hxp as [<- | [<- | [<- | []]]]; eexists; reflexivity.
  - eexists. reflexivity.
Defined.

Lemma session_released_once_witness :
  let tr := s_trace (snd (selenium_boost_worker env_L "user@example.org" "pw"
                            1%Z true 25%Z)) in
  (sessions tr = [] /\ quits tr = 0) \/
  (length (sessions tr) = 1 /\ quits tr = 1 /\ exists t, tr = app t [EvQuit]).
Proof.
  intros tr.
  set (p := selenium_boost_worker env_L "user@example.org" "pw" 1%Z true 25%Z).
  apply (session_released_once env_L "user@example.org" "pw" 1%Z true 25%Z
           (fst p) (snd p)).
  vm_compute. reflexivity.
Defined.

Lemma session_options_fixed_witness :
  let p := selenium_boost_worker env_C "user@example.org" "pw" 3%Z true 25%Z in
  let o := build_options true (e_chrome_bin env_C) in
  In o (sessions (s_trace (snd p))) /\
  o_args o = app ["--headless=new"]
                 ["--no-sandbox"; "--disable-dev-shm-usage"; "--disable-gpu";
                  "--window-size=1920,1080"; "--lang=en-US"] /\
  o_binary_location o = (if truthy (e_chrome_bin env_C) then e_chrome_bin env_C else None) /\
  o_experimental o = [] /\
  suppresses_automation_flag o = false.
Proof.
  intros p o.
  assert (Ho : In o (sessions (s_trace (snd p)))) by (vm_compute; left; reflexivity).
  split; [exact Ho|].
  apply (session_options_fixed env_C "user@example.org" "pw" 3%Z true 25%Z
           (fst p) (snd p)).
  - vm_compute. reflexivity.
  - exact Ho.
Defined.

Lemma failed_run_reports_no_clicks_witness :
  let p := selenium_boost_worker env_P "user@example.org" "pw" 1%Z true 25%Z in
  let resp := match fst p with Ok v => v | Exn _ => no_response end in
  clicked_count resp = 0%Z /\ clicked_addresses resp = [].
Proof.
  intros p resp.
  apply (failed_run_reports_no_clicks env_P "user@example.org" "pw" 1%Z true 25%Z
           resp (snd p)).
  - vm_compute. reflexivity.
  - vm_compute. reflexivity.
Defined.

(** Scenario C of the spec on the code: eligible [X; Y; Z], three requested,
    the click on [Y] raises. *)
Example scenario_C_outcome :
  let resp := match fst (selenium_boost_worker env_C "user@example.org" "pw"
                           3%Z true 25%Z) with
              | Ok v => v | Exn _ => no_response end in
  success resp = true /\ clicked_count resp = 2%Z /\
  clicked_addresses resp = [Some "1 X Street"; Some "3 Z Street"] /\
  In "Error clicking boost #2 (2 Y Street): stale element reference" (debug_logs resp).
Proof. vm_compute. split; [reflexivity|split; [reflexivity|split; [reflexivity|]]].
  repeat (first [left; reflexivity | right]). Qed.

(** * Further properties of [app.py] *)

(** ** Locating the binaries *)

Lemma truthy_some o : truthy o = true -> exists p, o = Some p /\ p <> "".
Proof.
  destruct o as [p|]; simpl; [|discriminate]. intros H.
  exists p. split; [reflexivity|]. intros ->. discriminate.
Qed.

Lemma or_default_falsy o d : truthy o = false -> or_default o d = d.
Proof.
  destruct o as [p|]; simpl; [|reflexivity].
  destruct (String.eqb p "") eqn:E; simpl; [reflexivity|discriminate].
Qed.

Lemma which_first_some h exes p :
  which_first h exes = Some p ->
  p <> "" /\ exists exe, In exe exes /\ h_which h exe = Some p.
Proof.
  induction exes as [|exe exes IH]; simpl; [discriminate|].
  destruct (truthy (h_which h exe)) eqn:T; intros H.
  - apply truthy_some in T. destruct T as (q & Hq & Hne).
    rewrite Hq in H. inversion H; subst.
    split; [exact Hne|]. exists exe. auto.
  - destruct (IH H) as (Hne & exe' & Hin & Hw). split; [exact Hne|]. eauto.
Qed.

Lemma which_first_none h exes :
  which_first h exes = None -> forall exe, In exe exes -> truthy (h_which h exe) = false.
Proof.
  induction exes as [|exe exes IH]; simpl; [tauto|].
  destruct (truthy (h_which h exe)) eqn:T; intros H x Hx.
  - apply truthy_some in T. destruct T as (q & Hq & _). congruence.
  - destruct Hx as [<-|Hx]; auto.
Qed.

Lemma file_first_some h ps p :
  file_first h ps = Some p -> In p ps /\ h_isfile h p = true.
Proof.
  induction ps as [|q ps IH]; simpl; [discriminate|].
  destruct (h_isfile h q) eqn:F; intros H.
  - inversion H; subst. auto.
  - destruct (IH H). auto.
Qed.

Lemma file_first_none h ps :
  file_first h ps = None -> forall p, In p ps -> h_isfile h p = false.
Proof.
  induction ps as [|q ps IH]; simpl; [tauto|].
  destruct (h_isfile h q) eqn:F; intros H p Hp; [discriminate|].
  destruct Hp as [<-|Hp]; auto.
Qed.

Lemma py_or_some a b p :
  py_or a b = Some p -> a = Some p \/ b = Some p.
Proof. unfold py_or. destruct (truthy a); auto. Qed.

(** X1: a path returned by [find_chrome_binary] is non-empty and is either an
    existing file named by [CHROME_BIN], [GOOGLE_CHROME_SHIM] or one of the
    common install paths, or what [shutil.which] gave for one of the five
    executable names. *)
Theorem find_chrome_binary_sound h p :
  find_chrome_binary h = Some p ->
  p <> "" /\
  ((h_isfile h p = true /\
    (h_environ h "CHROME_BIN" = Some p \/ h_environ h "GOOGLE_CHROME_SHIM" = Some p
     \/ In p COMMON_CHROME_PATHS)) \/
   (exists exe, In exe CHROME_EXES /\ h_which h exe = Some p)).
Proof.
  unfold find_chrome_binary.
  set (env := py_or _ _).
  destruct (truthy env && h_isfile h (or_empty env)) eqn:E; intros H.
  - apply andb_true_iff in E. destruct E as [T F].
    apply truthy_some in T. destruct T as (q & Hq & Hne).
    rewrite Hq in H, F. inversion H; subst. simpl in F.
    split; [exact Hne|]. left. split; [exact F|].
    apply py_or_some in Hq. tauto.
  - destruct (which_first h CHROME_EXES) as [q|] eqn:W.
    + inversion H; subst. apply which_first_some in W. tauto.
    + apply file_first_some in H. destruct H as [Hin F].
      split.
      * intros ->. simpl in Hin. intuition discriminate.
      * left. auto.
Qed.

(** X2: [find_chrome_binary] gives [None] only when no executable name is
    found on the [PATH] and none of the common install paths is a file. *)
Theorem find_chrome_binary_none h :
  find_chrome_binary h = None ->
  (forall exe, In exe CHROME_EXES -> truthy (h_which h exe) = false) /\
  (forall p, In p COMMON_CHROME_PATHS -> h_isfile h p = false).
Proof.
  unfold find_chrome_binary.
  set (env := py_or _ _).
  destruct (truthy env && h_isfile h (or_empty env)) eqn:E; intros H.
  - apply andb_true_iff in E. destruct E as [T _].
    apply truthy_some in T. destruct T as (q & Hq & _). congruence.
  - destruct (which_first h CHROME_EXES) eqn:W; [discriminate|].
    split; [apply which_first_none; exact W|apply file_first_none; exact H].
Qed.

(** X3: once [CHROME_BIN] is set to a non-empty value, [GOOGLE_CHROME_SHIM]
    plays no part: the result is the same whatever the latter holds, also
    when [CHROME_BIN] names no file. *)
Theorem chrome_bin_shadows_shim h h' :
  truthy (h_environ h "CHROME_BIN") = true ->
  (forall k, k <> "GOOGLE_CHROME_SHIM" -> h_environ h' k = h_environ h k) ->
  h_isfile h' = h_isfile h -> h_which h' = h_which h ->
  find_chrome_binary h' = find_chrome_binary h.
Proof.
  intros T Henv Hf Hw.
  assert (Hc : h_environ h' "CHROME_BIN" = h_environ h "CHROME_BIN")
    by (apply Henv; discriminate).
  assert (Hwf : forall exes, which_first h' exes = which_first h exes).
  { induction exes as [|x xs IH]; simpl; [reflexivity|]. rewrite Hw, IH. reflexivity. }
  assert (Hff : forall ps, file_first h' ps = file_first h ps).
  { induction ps as [|x xs IH]; simpl; [reflexivity|]. rewrite Hf, IH. reflexivity. }
  unfold find_chrome_binary, py_or. rewrite Hc, T, Hf, Hwf, Hff. reflexivity.
Qed.

(** X4: a path returned by [find_chromedriver_binary] is non-empty and is an
    existing file (from the environment or a common path), the [PATH] hit for
    [chromedriver], or the autoinstaller's file; the autoinstaller is used
    only when it is available and [find_chrome_binary] finds Chrome. *)
Theorem find_chromedriver_binary_sound h p :
  find_chromedriver_binary h = Some p ->
  p <> "" /\
  ((h_isfile h p = true /\
    (h_environ h "CHROMEDRIVER_PATH" = Some p \/ h_environ h "CHROMEDRIVER_BIN" = Some p
     \/ In p COMMON_CHROMEDRIVER_PATHS)) \/
   h_which h "chromedriver" = Some p \/
   (h_autoinstaller h = true /\ truthy (find_chrome_binary h) = true /\
    h_install h = Ok (Some p) /\ h_installed_isfile h p = true)).
Proof.
  unfold find_chromedriver_binary.
  set (env := py_or _ _).
  destruct (truthy env && h_isfile h (or_empty env)) eqn:E; intros H.
  - apply andb_true_iff in E. destruct E as [T F].
    apply truthy_some in T. destruct T as (q & Hq & Hne).
    rewrite Hq in H, F. inversion H; subst. simpl in F.
    split; [exact Hne|]. left. split; [exact F|].
    apply py_or_some in Hq. tauto.
  - destruct (truthy (h_which h "chromedriver")) eqn:T.
    + apply truthy_some in T. destruct T as (q & Hq & Hne).
      rewrite Hq in H. inversion H; subst. auto.
    + destruct (file_first h COMMON_CHROMEDRIVER_PATHS) as [q|] eqn:FF.
      * inversion H; subst. apply file_first_some in FF. destruct FF as [Hin F].
        split.
        -- intros ->. simpl in Hin. intuition discriminate.
        -- left. auto.
      * destruct (h_autoinstaller h && truthy (find_chrome_binary h)) eqn:A;
          [|discriminate].
        apply andb_true_iff in A. destruct A as [A1 A2].
        destruct (h_install h) as [installed|e] eqn:I; [|discriminate].
        destruct (truthy installed && h_installed_isfile h (or_empty installed))
          eqn:J; [|discriminate].
        apply andb_true_iff in J. destruct J as [J1 J2].
        apply truthy_some in J1. destruct J1 as (q & Hq & Hne).
        subst installed. inversion H; subst. simpl in J2.
        split; [exact Hne|]. right; right. auto.
Qed.

(** ** Resolved addresses are stripped *)

Lemma string_app_nil_r s : (s ++ "")%string = s.
Proof. induction s as [|c s IH]; simpl; [reflexivity|rewrite IH; reflexivity]. Qed.

Lemma string_app_assoc a b c : ((a ++ b) ++ c)%string = (a ++ (b ++ c))%string.
Proof. induction a as [|x a IH]; simpl; [reflexivity|rewrite IH; reflexivity]. Qed.

Lemma rev_string_app a b :
  rev_string (a ++ b) = (rev_string b ++ rev_string a)%string.
Proof.
  induction a as [|c a IH]; simpl.
  - rewrite string_app_nil_r. reflexivity.
  - rewrite IH, string_app_assoc. reflexivity.
Qed.

Lemma rev_string_involutive s : rev_string (rev_string s) = s.
Proof.
  induction s as [|c s IH]; simpl; [reflexivity|].
  rewrite rev_string_app, IH. reflexivity.
Qed.

Lemma lstrip_idem s : lstrip (lstrip s) = lstrip s.
Proof.
  induction s as [|c s IH]; simpl; [reflexivity|].
  destruct (is_space c) eqn:E; [exact IH|simpl; rewrite E; reflexivity].
Qed.

Lemma lstrip_head s :
  lstrip s = "" \/ exists c t, lstrip s = String c t /\ is_space c = false.
Proof.
  induction s as [|c s IH]; simpl; [left; reflexivity|].
  destruct (is_space c) eqn:E; [exact IH|right; eauto].
Qed.

Lemma lstrip_snoc u c :
  is_space c = false -> exists v, lstrip (u ++ String c "") = (v ++ String c "")%string.
Proof.
  intros Hc. induction u as [|d u IH]; simpl.
  - rewrite Hc. exists "". reflexivity.
  - destruct (is_space d); [exact IH|]. exists (String d u). reflexivity.
Qed.

Lemma py_strip_trimmed s : trimmed (py_strip s).
Proof.
  unfold trimmed, py_strip.
  set (y := lstrip (rev_string (lstrip s))).
  split.
  - destruct (lstrip_head s) as [E | (c & t & E & Hc)].
    + subst y. rewrite E. reflexivity.
    + subst y. rewrite E. simpl.
      destruct (lstrip_snoc (rev_string t) c Hc) as [v Hv]. rewrite Hv.
      rewrite rev_string_app. simpl. rewrite Hc. reflexivity.
  - rewrite rev_string_involutive. subst y. apply lstrip_idem.
Qed.

Lemma get_text_trimmed el : trimmed (get_element_text_via_js el).
Proof.
  unfold get_element_text_via_js. destruct (n_js_text el).
  - apply py_strip_trimmed.
  - split; reflexivity.
Qed.

Lemma text_address_good el :
  good_address (let addr := get_element_text_via_js el in
                if String.eqb addr "" then Ok None else Ok (Some addr)).
Proof.
  intros a. simpl. destruct (String.eqb (get_element_text_via_js el) "") eqn:E;
    intros H; inversion H; subst.
  split; [intros Ha; rewrite Ha in E; discriminate|apply get_text_trimmed].
Qed.

Lemma address_via_good anc : good_address (address_via anc).
Proof.
  unfold address_via. destruct anc as [a|e]; [|intros x H; discriminate].
  destruct (c_address a) as [el|e]; [apply text_address_good|intros x H; discriminate].
Qed.

Lemma try_pass_good r : good_address r -> good_address (try_pass r).
Proof.
  intros G a. destruct r as [o|e]; simpl; [apply G|discriminate].
Qed.

Lemma ancestors_loop_good b xps : good_address (ancestors_loop b xps).
Proof.
  induction xps as [|xp xps IH]; simpl; [intros a H; discriminate|].
  pose proof (try_pass_good _ (address_via_good (find_ancestor b xp))) as G.
  destruct (try_pass (address_via (find_ancestor b xp))) as [[a|]|e] eqn:E.
  - exact G.
  - exact IH.
  - intros a H; discriminate.
Qed.

Lemma find_address_body_good b : good_address (find_address_body b).
Proof.
  unfold find_address_body.
  pose proof (try_pass_good _ (address_via_good (find_ancestor b XP_CARD))) as G1.
  destruct (try_pass (address_via (find_ancestor b XP_CARD))) as [[a|]|e];
    [exact G1| |intros x H; discriminate].
  pose proof (ancestors_loop_good b [XP_ITEM; XP_WRAPPER]) as G2.
  destruct (ancestors_loop b [XP_ITEM; XP_WRAPPER]) as [[a|]|e];
    [exact G2| |intros x H; discriminate].
  apply try_pass_good. destruct (b_preceding b) as [el|e];
    [apply text_address_good|intros x H; discriminate].
Qed.

(** X5: an address found by [find_address_for_button] is never the empty
    string and carries no whitespace at either end (it is the stripped
    [innerText]/[textContent] of the address element). *)
Theorem find_address_trimmed b a :
  find_address_for_button b = Ok (Some a) -> a <> "" /\ trimmed a.
Proof.
  unfold find_address_for_button. pose proof (find_address_body_good b) as G.
  destruct (find_address_body b) as [[x|]|e]; intros H; inversion H; subst.
  apply G. reflexivity.
Qed.

(** ** Scrolling and polling *)

Lemma scroll_loop_state env fuel : forall loops last s r s',
  scroll_loop env fuel loops last s = (r, s') -> s' = s.
Proof.
  induction fuel as [|f IH]; intros loops last s r s' H; simpl in H.
  - inversion H; reflexivity.
  - unfold bind at 1, lift at 1 in H. destruct (e_scroll_by env loops);
      [|inversion H; reflexivity].
    unfold bind at 1, lift at 1 in H. destruct (e_height env (S loops)) as [nh|e];
      [|inversion H; reflexivity].
    destruct (Z.eqb nh last); [inversion H; reflexivity|]. eapply IH. exact H.
Qed.

Lemma scroll_loop_spec env f : forall loops last s k s',
  e_height env loops = Ok last ->
  scroll_loop env (S f) loops last s = (Ok k, s') ->
  (loops < k <= loops + S f)%nat /\
  (forall j, (loops <= j <= k)%nat -> exists v, e_height env j = Ok v) /\
  (forall j, (loops < j < k)%nat -> e_height env j <> e_height env (j - 1)) /\
  ((k < loops + S f)%nat -> e_height env k = e_height env (k - 1)).
Proof.
  induction f as [|f IH]; intros loops last s k s' H0 H; simpl in H;
    unfold bind at 1, lift at 1 in H; destruct (e_scroll_by env loops);
    try discriminate;
    unfold bind at 1, lift at 1 in H; destruct (e_height env (S loops)) as [nh|e] eqn:Hn;
    try discriminate.
  - assert (k = S loops) by (destruct (Z.eqb nh last); inversion H; reflexivity).
    subst k. split; [lia|]. split.
    + intros j Hj. assert (j = loops \/ j = S loops) as [-> | ->] by lia; eauto.
    + split; [intros j Hj; lia|intros; lia].
  - destruct (Z.eqb nh last) eqn:Eq.
    + inversion H; subst. apply Z.eqb_eq in Eq. subst nh.
      split; [lia|]. split.
      * intros j Hj. assert (j = loops \/ j = S loops) as [-> | ->] by lia; eauto.
      * split; [intros j Hj; lia|]. intros _. simpl. rewrite Nat.sub_0_r, Hn, H0.
        reflexivity.
    + apply Z.eqb_neq in Eq.
      destruct (IH (S loops) nh s k s' Hn H) as (B & Ex & Ne & St).
      split; [lia|]. split.
      * intros j Hj. destruct (Nat.eq_dec j loops) as [->|Hj']; [eauto|].
        apply Ex. lia.
      * split.
        -- intros j Hj. destruct (Nat.eq_dec j (S loops)) as [->|Hj'].
           ++ simpl. rewrite Nat.sub_0_r, Hn, H0. congruence.
           ++ apply Ne. lia.
        -- intros Hk. apply St. lia.
Qed.

(** X6: when the listing page loads, the scrolling loop runs [k] rounds with
    [1 <= k <= 60]: the page height changed after every round before the
    [k]-th, and, unless the cap of 60 rounds was reached, the [k]-th round
    left it unchanged.  The log records [k]. *)
Theorem load_listing_scrolls env s s' :
  load_listing env s = (Ok tt, s') ->
  exists k, (1 <= k <= DEFAULT_MAX_SCROLL_LOOPS)%nat /\
    s_logs s' = app (s_logs s) ["Navigated to " ++ listing_url;
                                "Finished incremental scrolling (" ++ show_nat k ++ " loops)"] /\
    (forall j, (j <= k)%nat -> exists v, e_height env j = Ok v) /\
    (forall j, (1 <= j < k)%nat -> e_height env j <> e_height env (j - 1)) /\
    ((k < DEFAULT_MAX_SCROLL_LOOPS)%nat -> e_height env k = e_height env (k - 1)).
Proof.
  unfold load_listing. intros H.
  apply bind_inv in H. destruct H as [(u1 & s1 & Hn & H) | (e & Hn & Hr)];
    [|discriminate].
  unfold lift in Hn. injection Hn as _ <-.
  apply bind_inv in H. destruct H as [(u2 & s2 & Hl & H) | (e & Hl & Hr)];
    [|discriminate].
  unfold log in Hl. injection Hl as _ <-.
  apply bind_inv in H. destruct H as [(h0 & s3 & Hh & H) | (e & Hh & Hr)];
    [|discriminate].
  unfold lift in Hh. injection Hh as H0 <-.
  apply bind_inv in H. destruct H as [(k & s4 & Hsc & H) | (e & Hsc & Hr)];
    [|discriminate].
  pose proof (scroll_loop_state _ _ _ _ _ _ _ Hsc) as Hs. subst s4.
  destruct (scroll_loop_spec env 59 0 h0 _ k _ H0 Hsc) as (B & Ex & Ne & St).
  unfold log in H. injection H as <-. simpl.
  exists k. split; [unfold DEFAULT_MAX_SCROLL_LOOPS; lia|].
  split; [rewrite <- app_assoc; reflexivity|].
  split; [intros j Hj; apply Ex; lia|].
  split; [intros j Hj; apply Ne; lia|].
  intros Hk. apply St. unfold DEFAULT_MAX_SCROLL_LOOPS in Hk. lia.
Qed.

(** X7: the JS polling loop reports "nothing found" only when every round
    within the timeout read all three counts and none was positive; when it
    reports [found_count = n], the rounds before were all empty and [n] is
    the largest of the three counts of the first round with a positive
    count. *)
Theorem poll_loop_result rounds : forall s r s',
  poll_loop rounds s = (r, s') ->
  (r = Ok None -> Forall nothing_found rounds) /\
  (forall n, r = Ok (Some n) ->
     exists pre b c a rest,
       rounds = app pre ((Ok b, Ok c, Ok a) :: rest) /\
       Forall nothing_found pre /\ (0 < b \/ 0 < c \/ 0 < a)%Z /\
       n = Z.max b (Z.max c a)).
Proof.
  induction rounds as [|[[rb rc] ra] rs IH]; intros s r s' H; simpl in H.
  - injection H as <- _. split; [constructor|intros n Hn; discriminate].
  - unfold bind, lift, log in H.
    destruct rb as [b|e]; [|injection H as <- _; split; discriminate].
    destruct rc as [c|e]; [|injection H as <- _; split; discriminate].
    destruct ra as [a|e]; [|injection H as <- _; split; discriminate].
    destruct ((0 <? b)%Z || (0 <? c)%Z || (0 <? a)%Z) eqn:Hp.
    + unfold ret in H. injection H as <- _. split; [discriminate|].
      intros n Hn. injection Hn as <-.
      exists [], b, c, a, rs. split; [reflexivity|]. split; [constructor|].
      split; [|reflexivity].
      apply orb_true_iff in Hp. destruct Hp as [Hp|Hp];
        [apply orb_true_iff in Hp; destruct Hp as [Hp|Hp]|];
        apply Z.ltb_lt in Hp; auto.
    + apply orb_false_iff in Hp. destruct Hp as [Hp Ha].
      apply orb_false_iff in Hp. destruct Hp as [Hb Hc].
      apply Z.ltb_ge in Ha, Hb, Hc.
      assert (Hz : nothing_found (Ok b, Ok c, Ok a)) by (exists b, c, a; auto).
      destruct (IH _ _ _ H) as [IH1 IH2]. split.
      * intros Hr. constructor; [exact Hz|auto].
      * intros n Hn. destruct (IH2 n Hn) as (pre & b' & c' & a' & rest & E & F & P & N).
        exists ((Ok b, Ok c, Ok a) :: pre), b', c', a', rest.
        rewrite E. split; [reflexivity|]. split; [constructor; auto|auto].
Qed.

(** ** Building [boostable] *)

Lemma inspect_button_boostable idx btn s r s' :
  inspect_button idx btn s = (r, s') ->
  s_boostable s' = app (s_boostable s) (entry_of btn).
Proof.
  unfold inspect_button, entry_of. fold (button_norm btn). cbv zeta.
  unfold bind, lift. destruct (b_class btn) as [cls|e].
  - destruct (is_boostable (button_norm btn) (lower (or_empty cls))).
    + destruct (find_address_total btn) as [a Ha]. rewrite Ha.
      unfold push_boostable, log. intros H. injection H as _ <-. reflexivity.
    + unfold log. intros H. injection H as _ <-. simpl. rewrite app_nil_r.
      reflexivity.
  - intros H. injection H as _ <-. rewrite app_nil_r. reflexivity.
Qed.

Lemma filter_buttons_boostable bs : forall idx s r s',
  filter_buttons idx bs s = (r, s') ->
  s_boostable s' = app (s_boostable s) (flat_map entry_of bs).
Proof.
  induction bs as [|b bs IH]; intros idx s r s' H; simpl in H.
  - injection H as _ <-. simpl. rewrite app_nil_r. reflexivity.
  - apply bind_inv in H. destruct H as [(u & s1 & Hm & H) | (e & Hm & Hr)].
    + apply IH in H. rewrite H. simpl. rewrite app_assoc. f_equal.
      apply try_inv in Hm. destruct Hm as [(a & Hi & _) | (e & s0 & Hi & Hh)].
      * eapply inspect_button_boostable. exact Hi.
      * apply inspect_button_boostable in Hi. unfold log in Hh.
        injection Hh as _ <-. exact Hi.
    + apply try_inv in Hm. destruct Hm as [(a & _ & Ha) | (e' & s1 & _ & Hh)];
        [discriminate|]. inversion Hh.
Qed.

(** X8: from the buttons collected on the page, [boostable] is exactly the
    buttons, in document order, whose class attribute could be read and that
    the classifier accepts, each paired with the address
    [find_address_for_button] gives and its normalised text; a button whose
    inspection raises is skipped without ending the loop.  When that list is
    empty the stage raises "No boostable buttons found to click". *)
Theorem resolve_targets_exact env bs s r s' :
  e_buttons env = Ok bs -> s_boostable s = [] ->
  resolve_targets env s = (r, s') ->
  s_boostable s' = flat_map entry_of bs /\
  r = match flat_map entry_of bs with
      | [] => Exn "No boostable buttons found to click"
      | E => Ok E
      end.
Proof.
  intros Hb H0 H. unfold resolve_targets in H.
  apply bind_inv in H. destruct H as [(bs' & s1 & Hm & H) | (e & Hm & Hr)];
    unfold lift in Hm; rewrite Hb in Hm; [|discriminate].
  injection Hm as <- <-.
  apply bind_inv in H. destruct H as [(u & s2 & Hl & H) | (e & Hl & Hr)];
    [|discriminate].
  unfold log in Hl. injection Hl as _ <-.
  apply bind_inv in H. destruct H as [(u' & s3 & Hf & H) | (e & Hf & Hr)].
  2:{ apply filter_buttons_ok in Hf. discriminate. }
  apply filter_buttons_boostable in Hf. simpl in Hf. rewrite H0 in Hf. simpl in Hf.
  apply bind_inv in H. destruct H as [(sg & s4 & Hg & H) | (e & Hg & Hr)];
    [|discriminate].
  unfold get in Hg. injection Hg as <- <-.
  apply bind_inv in H. destruct H as [(u2 & s4 & Hl & H) | (e & Hl & Hr)];
    [|discriminate].
  unfold log in Hl. injection Hl as _ <-. simpl in H.
  rewrite Hf in H. destruct (flat_map entry_of bs) as [|x xs] eqn:HE.
  - apply bind_inv in H. destruct H as [(u3 & s5 & Ht & H) | (e & Ht & Hr)].
    + apply try_screenshot_keeps in Ht. destruct Ht as [_ Hk _ _]. simpl in Hk.
      unfold raise in H. injection H as <- <-. split; [congruence|reflexivity].
    + apply try_inv in Ht. destruct Ht as [(a & _ & Ha) | (e' & s6 & _ & Hh)];
        [discriminate|]. inversion Hh.
  - unfold ret in H. injection H as <- <-. split; reflexivity.
Qed.

(** ** Whole runs *)

(** X9: when no chromedriver is detected, the run fails before Chrome is
    started: the error is the "Chromedriver binary not found" message, there
    is no screenshot, no session is created or released, and the log holds
    the start line, the two detection lines and the handler's two lines. *)
Theorem no_chromedriver_fails_early env email password n h w :
  truthy (e_chromedriver_bin env) = false ->
  let '(r, sf) := selenium_boost_worker env email password n h w in
  r = Ok {| success := false; clicked_count := 0; clicked_addresses := [];
            debug_logs := ["Starting Selenium worker";
                           "Detected chrome binary: " ++ or_default (e_chrome_bin env) "<none>";
                           "Detected chromedriver binary: <none>";
                           "Unhandled exception: " ++ CHROMEDRIVER_MISSING;
                           format_exc CHROMEDRIVER_MISSING];
            error := Some CHROMEDRIVER_MISSING; screenshot_base64 := None |} /\
  s_trace sf = [].
Proof.
  intros H.
  unfold selenium_boost_worker, try_except, worker_body, acquire_session,
    except_handler, finally_block, bind, log, ret, raise, get.
  rewrite H. cbn. rewrite (or_default_falsy _ "<none>" H). split; reflexivity.
Qed.

(** X10: when Chrome fails to start, the run fails with that exception's
    message as [error], takes no screenshot, and neither creates nor
    releases a session. *)
Theorem chrome_start_failure env email password n h w e :
  truthy (e_chromedriver_bin env) = true ->
  e_start env (build_options h (e_chrome_bin env)) = Exn e ->
  let '(r, sf) := selenium_boost_worker env email password n h w in
  r = Ok {| success := false; clicked_count := 0; clicked_addresses := [];
            debug_logs := ["Starting Selenium worker";
                           "Detected chrome binary: " ++ or_default (e_chrome_bin env) "<none>";
                           "Detected chromedriver binary: "
                             ++ or_default (e_chromedriver_bin env) "<none>";
                           "Unhandled exception: " ++ e; format_exc e];
            error := Some e; screenshot_base64 := None |} /\
  s_trace sf = [].
Proof.
  intros H He.
  unfold selenium_boost_worker, try_except, worker_body, acquire_session,
    except_handler, finally_block, bind, log, ret, raise, get, lift.
  rewrite H. cbn. rewrite He. cbn. split; reflexivity.
Qed.

(** X11: a run reports [success=true] exactly when its [boostable] list is
    non-empty: once a boostable button is found nothing can fail the run,
    and every failing run ends with an empty [boostable]. *)
Theorem success_iff_boostable env email password n h w r sf :
  selenium_boost_worker env email password n h w = (r, sf) ->
  exists resp, r = Ok resp /\ (success resp = true <-> s_boostable sf <> []).
Proof.
  intros H. apply worker_cases in H.
  destruct H as [_ [(Hne & (l & sh & ->) & _) | (e & l & sh & -> & HE & _)]].
  - eexists. split; [reflexivity|]. simpl. tauto.
  - eexists. split; [reflexivity|]. simpl. split; [discriminate|tauto].
Qed.

(** X12: a run whose every click attempt raises still reports [success=true],
    with [clicked_count = 0] and no address. *)
Theorem all_clicks_fail_success env email password n h w r sf :
  selenium_boost_worker env email password n h w = (r, sf) ->
  s_boostable sf <> [] ->
  Forall (fun x => click_ok x = false) (to_attempt n (s_boostable sf)) ->
  exists resp, r = Ok resp /\ success resp = true /\
    clicked_count resp = 0%Z /\ clicked_addresses resp = [].
Proof.
  intros H Hne HF. apply worker_cases in H.
  destruct H as [_ [(_ & (l & sh & ->) & _) | (_ & _ & _ & _ & HE & _)]];
    [|contradiction].
  assert (Hf : filter click_ok (to_attempt n (s_boostable sf)) = []).
  { induction HF as [|x xs Hx _ IH]; [reflexivity|]. simpl. rewrite Hx. exact IH. }
  eexists. split; [reflexivity|]. simpl. rewrite Hf. auto.
Qed.

(** ** The [/boost] endpoint *)

(** X13: for every request that passed validation (so [num_buttons >= 1],
    by [Field(1, ge=1)]), [boost_endpoint] answers with the worker's report,
    never with a 500, and that report has [0 <= clicked_count <= num_buttons]. *)
Theorem boost_endpoint_outcome env req :
  (1 <= num_buttons req)%Z ->
  exists resp, boost_endpoint env req = Resp resp /\
    (0 <= clicked_count resp <= num_buttons req)%Z.
Proof.
  intros Hn. unfold boost_endpoint.
  match goal with |- context [selenium_boost_worker ?e ?a ?b ?c ?d ?f] =>
    destruct (selenium_boost_worker e a b c d f) as [r sf] eqn:W end.
  apply worker_cases in W. simpl.
  destruct W as [_ [(_ & (l & sh & ->) & _) | (e & l & sh & -> & _)]].
  - eexists. split; [reflexivity|]. simpl.
    set (n := num_buttons req) in *.
    pose proof (filter_length_le click_ok (to_attempt n (s_boostable sf))) as L.
    pose proof (to_attempt_length n (s_boostable sf) ltac:(lia)) as L2.
    split; [lia|].
    assert (Z.of_nat (length (to_attempt n (s_boostable sf))) <= n)%Z.
    { rewrite L2. lia. }
    lia.
  - eexists. split; [reflexivity|]. simpl. lia.
Qed.

(** ** Witnesses for the further properties *)

Lemma find_chrome_binary_sound_witness :
  "/usr/bin/google-chrome" <> "" /\
  ((h_isfile host_A "/usr/bin/google-chrome" = true /\
    (h_environ host_A "CHROME_BIN" = Some "/usr/bin/google-chrome"
     \/ h_environ host_A "GOOGLE_CHROME_SHIM" = Some "/usr/bin/google-chrome"
     \/ In "/usr/bin/google-chrome" COMMON_CHROME_PATHS)) \/
   (exists exe, In exe CHROME_EXES /\ h_which host_A exe = Some "/usr/bin/google-chrome")).
Proof.
  apply find_chrome_binary_sound. vm_compute. reflexivity.
Defined.

Lemma find_chrome_binary_none_witness :
  (forall exe, In exe CHROME_EXES -> truthy (h_which host_none exe) = false) /\
  (forall p, In p COMMON_CHROME_PATHS -> h_isfile host_none p = false).
Proof.
  apply find_chrome_binary_none. vm_compute. reflexivity.
Defined.

Lemma chrome_bin_shadows_shim_witness :
  find_chrome_binary host_A' = find_chrome_binary host_A.
Proof.
  apply chrome_bin_shadows_shim.
  - vm_compute. reflexivity.
  - intros k Hk. unfold host_A', host_A, lookup_env. cbn [h_environ find fst snd].
    destruct (String.eqb "CHROME_BIN" k); [reflexivity|].
    destruct (String.eqb_spec "GOOGLE_CHROME_SHIM" k) as [E|_];
      [subst k; contradiction|reflexivity].
  - reflexivity.
  - reflexivity.
Defined.

Lemma find_chromedriver_binary_sound_witness :
  "/tmp/chromedriver" <> "" /\
  ((h_isfile host_I "/tmp/chromedriver" = true /\
    (h_environ host_I "CHROMEDRIVER_PATH" = Some "/tmp/chromedriver"
     \/ h_environ host_I "CHROMEDRIVER_BIN" = Some "/tmp/chromedriver"
     \/ In "/tmp/chromedriver" COMMON_CHROMEDRIVER_PATHS)) \/
   h_which host_I "chromedriver" = Some "/tmp/chromedriver" \/
   (h_autoinstaller host_I = true /\ truthy (find_chrome_binary host_I) = true /\
    h_install host_I = Ok (Some "/tmp/chromedriver") /\
    h_installed_isfile host_I "/tmp/chromedriver" = true)).
Proof.
  apply find_chromedriver_binary_sound. vm_compute. reflexivity.
Defined.

Lemma find_address_trimmed_witness :
  "12 Elm Street" <> "" /\ trimmed "12 Elm Street".
Proof.
  apply (find_address_trimmed btn_ws). vm_compute. reflexivity.
Defined.

Lemma load_listing_scrolls_witness :
  let s' := snd (load_listing env_C init_st) in
  exists k, (1 <= k <= DEFAULT_MAX_SCROLL_LOOPS)%nat /\
    s_logs s' = app (s_logs init_st)
                    ["Navigated to " ++ listing_url;
                     "Finished incremental scrolling (" ++ show_nat k ++ " loops)"] /\
    (forall j, (j <= k)%nat -> exists v, e_height env_C j = Ok v) /\
    (forall j, (1 <= j < k)%nat -> e_height env_C j <> e_height env_C (j - 1)) /\
    ((k < DEFAULT_MAX_SCROLL_LOOPS)%nat -> e_height env_C k = e_height env_C (k - 1)).
Proof.
  intros s'. apply load_listing_scrolls. vm_compute. reflexivity.
Defined.

Lemma poll_loop_result_witness :
  let rounds := [(Ok 0%Z, Ok 0%Z, Ok 0%Z); (Ok 0%Z, Ok 2%Z, Ok 5%Z)] in
  let p := poll_loop rounds init_st in
  (fst p = Ok None -> Forall nothing_found rounds) /\
  (forall n, fst p = Ok (Some n) ->
     exists pre b c a rest,
       rounds = app pre ((Ok b, Ok c, Ok a) :: rest) /\
       Forall nothing_found pre /\ (0 < b \/ 0 < c \/ 0 < a)%Z /\
       n = Z.max b (Z.max c a)).
Proof.
  intros rounds p. apply (poll_loop_result rounds init_st (fst p) (snd p)).
  vm_compute. reflexivity.
Defined.

Lemma resolve_targets_exact_witness :
  let p := resolve_targets env_R init_st in
  s_boostable (snd p) = flat_map entry_of [btn_P; btn_E; btn_X] /\
  fst p = match flat_map entry_of [btn_P; btn_E; btn_X] with
          | [] => Exn "No boostable buttons found to click"
          | E => Ok E
          end.
Proof.
  intros p. apply (resolve_targets_exact env_R [btn_P; btn_E; btn_X] init_st).
  - reflexivity.
  - reflexivity.
  - vm_compute. reflexivity.
Defined.

Lemma no_chromedriver_fails_early_witness :
  let env := session_env None (Ok tt) in
  let '(r, sf) := selenium_boost_worker env "user@example.org" "pw" 1%Z true 25%Z in
  r = Ok {| success := false; clicked_count := 0; clicked_addresses := [];
            debug_logs := ["Starting Selenium worker";
                           "Detected chrome binary: " ++ or_default (e_chrome_bin env) "<none>";
                           "Detected chromedriver binary: <none>";
                           "Unhandled exception: " ++ CHROMEDRIVER_MISSING;
                           format_exc CHROMEDRIVER_MISSING];
            error := Some CHROMEDRIVER_MISSING; screenshot_base64 := None |} /\
  s_trace sf = [].
Proof.
  apply no_chromedriver_fails_early. reflexivity.
Defined.

Lemma chrome_start_failure_witness :
  let e := "session not created: Chrome failed to start" in
  let env := session_env (Some "/usr/bin/chromedriver") (Exn e) in
  let '(r, sf) := selenium_boost_worker env "user@example.org" "pw" 1%Z true 25%Z in
  r = Ok {| success := false; clicked_count := 0; clicked_addresses := [];
            debug_logs := ["Starting Selenium worker";
                           "Detected chrome binary: " ++ or_default (e_chrome_bin env) "<none>";
                           "Detected chromedriver binary: "
                             ++ or_default (e_chromedriver_bin env) "<none>";
                           "Unhandled exception: " ++ e; format_exc e];
            error := Some e; screenshot_base64 := None |} /\
  s_trace sf = [].
Proof.
  intros e env. apply chrome_start_failure.
  - reflexivity.
  - reflexivity.
Defined.

Lemma success_iff_boostable_witness :
  let p := selenium_boost_worker env_C "user@example.org" "pw" 3%Z true 25%Z in
  exists resp, fst p = Ok resp /\ (success resp = true <-> s_boostable (snd p) <> []).
Proof.
  intros p.
  apply (success_iff_boostable env_C "user@example.org" "pw" 3%Z true 25%Z
           (fst p) (snd p)).
  vm_compute. reflexivity.
Defined.

Lemma all_clicks_fail_success_witness :
  let p := selenium_boost_worker env_F "user@example.org" "pw" 1%Z true 25%Z in
  exists resp, fst p = Ok resp /\ success resp = true /\
    clicked_count resp = 0%Z /\ clicked_addresses resp = [].
Proof.
  intros p.
  apply (all_clicks_fail_success env_F "user@example.org" "pw" 1%Z true 25%Z
           (fst p) (snd p)).
  - vm_compute. reflexivity.
  - vm_compute. discriminate.
  - vm_compute. repeat constructor.
Defined.

Lemma boost_endpoint_outcome_witness :
  let req := mkReq "user@example.org" "pw" 2%Z true None in
  exists resp, boost_endpoint env_C req = Resp resp /\
    (0 <= clicked_count resp <= num_buttons req)%Z.
Proof.
  intros req. apply boost_endpoint_outcome. simpl. lia.
Defined.
